(** * Telemetry data analysis system: the z-score anomaly detector

    A shallow embedding of [models.py], [crud.py] and the ingestion endpoint of
    [main.py].  Python floats are IEEE 754 binary64 numbers and are modelled by
    Rocq's primitive floats; the two tables of the SQLite database are lists of
    rows in insertion (rowid) order; a function that writes to the database
    takes the session and returns the new one; a function that can raise
    returns a [result]. *)

From Stdlib Require Import Floats ZArith QArith List String Ascii Bool Lia Uint63.
From Stdlib Require Import Sorting.Sorted Sorting.Permutation DecimalString.
Import ListNotations.
Close Scope Q_scope.

(** ** Exceptions and results *)

Inductive exception : Type :=
| ValidationError   (* pydantic: the request body does not fit the model *)
| IntegrityError    (* sqlalchemy: a constraint of the schema is violated *)
| TypeError.        (* python: arithmetic on None *)

Inductive result (A : Type) : Type :=
| Return (a : A)
| Raise (e : exception).

Arguments Return {A} a.
Arguments Raise {A} e.

(** ** models.py *)

(** Row of table [telemetry_data]. Timestamps are instants on an integer
    clock. *)
Module TelemetryData.
Record t : Type := mk {
  id : Z;
  timestamp : Z;
  device_id : string;
  metric_name : string;
  metric_value : float;
  unit : option string
}.
End TelemetryData.

(** Row of table [anomalies]; [telemetry_id] carries [unique=True]. *)
Module Anomaly.
Record t : Type := mk {
  id : Z;
  telemetry_id : Z;
  device_id : string;
  metric_name : string;
  metric_value : float;
  timestamp : Z;
  anomaly_type : option string;
  threshold_used : option float
}.
End Anomaly.

(** The request model of the POST body.  [body] is the parsed JSON object:
    a key is absent, or holds a value that pydantic turns into the field's
    type, or holds one it cannot.  [validate] is what pydantic does with it:
    [timestamp] defaults to [datetime.utcnow()], [device_id] and [metric_name]
    are required with [min_length=1], [metric_value] is a required float with
    no further constraint, [unit] is a string or [None] and defaults to
    [None]. *)
Module TelemetryDataCreate.
Record t : Type := mk {
  timestamp : Z;
  device_id : string;
  metric_name : string;
  metric_value : float;
  unit : option string
}.

Inductive key (A : Type) : Type :=
| Absent
| Value (a : A)
| Invalid.

Arguments Absent {A}.
Arguments Value {A} a.
Arguments Invalid {A}.

Record body : Type := mk_body {
  b_timestamp : key Z;
  b_device_id : key string;
  b_metric_name : key string;
  b_metric_value : key float;
  b_unit : key (option string)
}.

(** [Field(...)] and [Field(default)]. *)
Definition required {A : Type} (k : key A) : result A :=
  match k with
  | Value a => Return a
  | Absent | Invalid => Raise ValidationError
  end.

Definition optional {A : Type} (default : A) (k : key A) : result A :=
  match k with
  | Absent => Return default
  | Value a => Return a
  | Invalid => Raise ValidationError
  end.

Definition bind {A B : Type} (r : result A) (f : A -> result B) : result B :=
  match r with
  | Return a => f a
  | Raise e => Raise e
  end.

Definition min_length (n : nat) (s : string) : bool := n <=? String.length s.

Definition validate (utcnow : Z) (b : body) : result t :=
  bind (optional utcnow (b_timestamp b)) (fun ts =>
  bind (required (b_device_id b)) (fun d =>
  bind (required (b_metric_name b)) (fun m =>
  bind (required (b_metric_value b)) (fun v =>
  bind (optional None (b_unit b)) (fun u =>
  if min_length 1 d && min_length 1 m
  then Return (mk ts d m v u)
  else Raise ValidationError))))).
End TelemetryDataCreate.

(** ** database.py: a session on the two tables *)

Record Session : Type := mkSession {
  telemetry_data : list TelemetryData.t;
  anomalies : list Anomaly.t
}.

(** An INTEGER PRIMARY KEY left unset takes one more than the largest key of
    the table. *)
Definition next_id (ids : list Z) : Z := (1 + fold_right Z.max 0 ids)%Z.

(** ** numpy on one-dimensional float64 arrays

    [np.mean] and [np.std] as [numpy/_core/_methods.py] computes them, on top
    of [np.add.reduce], which sums a contiguous array pairwise: fewer than
    eight elements in a plain loop, up to 128 with eight running sums, more by
    halving.  The sums start from [-0.0]; the sign of a zero sum has no effect
    on the detector. *)
Module np.

Definition array : Type := list float.

Definition len (a : array) : float :=
  PrimFloat.of_uint63 (Uint63.of_Z (Z.of_nat (List.length a))).

Definition loop_add (res : float) (a : array) : float :=
  fold_left PrimFloat.add a res.

Definition add8 (r b : array) : array :=
  map (fun p => (fst p + snd p)%float) (combine r b).

Fixpoint unrolled (blocks : nat) (r a : array) : array * array :=
  match blocks with
  | O => (r, a)
  | S k => unrolled k (add8 r (firstn 8 a)) (skipn 8 a)
  end.

Definition tree8 (r : array) : float :=
  match r with
  | [r0; r1; r2; r3; r4; r5; r6; r7] =>
      (((r0 + r1) + (r2 + r3)) + ((r4 + r5) + (r6 + r7)))%float
  | _ => nan
  end.

Fixpoint pairwise_sum_rec (fuel : nat) (a : array) : float :=
  let n := List.length a in
  if n <? 8 then loop_add neg_zero a
  else if n <=? 128 then
    let '(r, rest) := unrolled (n / 8 - 1) (firstn 8 a) (skipn 8 a) in
    loop_add (tree8 r) rest
  else
    match fuel with
    | O => nan
    | S f =>
        let n2 := n / 2 - (n / 2) mod 8 in
        (pairwise_sum_rec f (firstn n2 a) + pairwise_sum_rec f (skipn n2 a))%float
    end.

Definition pairwise_sum (a : array) : float :=
  pairwise_sum_rec (List.length a) a.

Definition sum (a : array) : float := (neg_zero + pairwise_sum a)%float.

Definition mean (a : array) : float := (sum a / len a)%float.

Definition var (a : array) : float :=
  let arrmean := (sum a / len a)%float in
  let x := map (fun v => (v - arrmean)%float) a in
  let x := map (fun d => (d * d)%float) x in
  (sum x / len a)%float.

Definition std (a : array) : float := PrimFloat.sqrt (var a).

End np.

(** ** Python's [format(x, ".2f")]

    The exact value [m * 2^e] of the float, rounded to the nearest hundredth,
    ties to the even one. *)

Definition hundredths (m : positive) (e : Z) : Z :=
  let n := (Z.pos m * 100)%Z in
  if (0 <=? e)%Z then (n * 2 ^ e)%Z
  else
    let d := (2 ^ (- e))%Z in
    let q := (n / d)%Z in
    let r := (n mod d)%Z in
    if (d <? 2 * r)%Z then (q + 1)%Z
    else if (2 * r =? d)%Z && Z.odd q then (q + 1)%Z
    else q.

Definition str_of_Z (n : Z) : string :=
  NilZero.string_of_uint (N.to_uint (Z.to_N n)).

Definition two_digits (n : Z) : string :=
  ((if (n <? 10)%Z then "0" else EmptyString) ++ str_of_Z n)%string.

Definition format_2f (x : float) : string :=
  match Prim2SF x with
  | S754_nan => "nan"
  | S754_infinity s => if s then "-inf" else "inf"
  | S754_zero s => if s then "-0.00" else "0.00"
  | S754_finite s m e =>
      let h := hundredths m e in
      ((if s then "-" else EmptyString) ++ str_of_Z (h / 100) ++ "." ++ two_digits (h mod 100))%string
  end.

(** What "rounded to 2 decimals" asks of the hundredths [h] printed for the
    value [m * 2^e]: [h] is an integer nearest to [100 * m * 2^e], and the
    even one when two are equally near. *)
Definition nearest_hundredths (m : positive) (e : Z) (h : Z) : Prop :=
  if (0 <=? e)%Z then h = (Z.pos m * 100 * 2 ^ e)%Z
  else
    (2 * Z.abs (h * 2 ^ (- e) - Z.pos m * 100) <= 2 ^ (- e))%Z
    /\ ((2 * Z.abs (h * 2 ^ (- e) - Z.pos m * 100) = 2 ^ (- e))%Z -> Z.even h = true).

(** ** What a REAL column keeps of a float

    SQLite stores a NaN as NULL, which is read back as [None], and it keeps
    no sign on a zero.  In a row, NaN stands for that [None]: a stored
    [metric_value] is a number exactly when it is not NaN. *)
Definition sqlite_real (v : float) : float :=
  if (v =? 0)%float then 0%float else v.

(** The same, read into an attribute whose [None] the model has. *)
Definition sqlite_real_nullable (v : float) : option float :=
  if is_nan v then None else Some (sqlite_real v).

(** ** crud.py *)
Module crud.

(** [create_telemetry_data]: add the row, commit, refresh (which loads the
    generated id and the value as the column keeps it). *)
Definition create_telemetry_data (db : Session) (telemetry : TelemetryDataCreate.t)
  : Session * TelemetryData.t :=
  let db_telemetry :=
    TelemetryData.mk
      (next_id (map TelemetryData.id (telemetry_data db)))
      (TelemetryDataCreate.timestamp telemetry)
      (TelemetryDataCreate.device_id telemetry)
      (TelemetryDataCreate.metric_name telemetry)
      (sqlite_real (TelemetryDataCreate.metric_value telemetry))
      (TelemetryDataCreate.unit telemetry) in
  (mkSession (telemetry_data db ++ [db_telemetry]) (anomalies db), db_telemetry).

(** The dictionary handed to [create_anomaly]. *)
Module AnomalyData.
Record t : Type := mk {
  telemetry_id : Z;
  device_id : string;
  metric_name : string;
  metric_value : float;
  timestamp : Z;
  anomaly_type : string;
  threshold_used : float
}.
End AnomalyData.

(** [create_anomaly]: add the row, commit, refresh.  The commit raises when a
    row with the same [telemetry_id] exists (the unique index of the column),
    and then nothing is written. *)
Definition create_anomaly (db : Session) (anomaly_data : AnomalyData.t)
  : Session * result Anomaly.t :=
  if existsb (fun a => (Anomaly.telemetry_id a =? AnomalyData.telemetry_id anomaly_data)%Z)
       (anomalies db)
  then (db, Raise IntegrityError)
  else
    let db_anomaly :=
      Anomaly.mk
        (next_id (map Anomaly.id (anomalies db)))
        (AnomalyData.telemetry_id anomaly_data)
        (AnomalyData.device_id anomaly_data)
        (AnomalyData.metric_name anomaly_data)
        (sqlite_real (AnomalyData.metric_value anomaly_data))
        (AnomalyData.timestamp anomaly_data)
        (Some (AnomalyData.anomaly_type anomaly_data))
        (sqlite_real_nullable (AnomalyData.threshold_used anomaly_data)) in
    (mkSession (telemetry_data db) (anomalies db ++ [db_anomaly]), Return db_anomaly).

(** The three conditions of the query's [filter]. *)
Definition same_series (telemetry_record d : TelemetryData.t) : bool :=
  (TelemetryData.device_id d =? TelemetryData.device_id telemetry_record)%string
  && (TelemetryData.metric_name d =? TelemetryData.metric_name telemetry_record)%string
  && negb (TelemetryData.id d =? TelemetryData.id telemetry_record)%Z.

(** [order_by(timestamp.desc())], as a stable insertion sort: rows of equal
    timestamp keep their table order (SQL leaves their order open). *)
Fixpoint insert_desc (d : TelemetryData.t) (l : list TelemetryData.t)
  : list TelemetryData.t :=
  match l with
  | [] => [d]
  | x :: l' =>
      if (TelemetryData.timestamp x <=? TelemetryData.timestamp d)%Z
      then d :: l
      else x :: insert_desc d l'
  end.

Definition order_by_timestamp_desc (l : list TelemetryData.t) : list TelemetryData.t :=
  fold_right insert_desc [] l.

Definition limit (n : nat) (l : list TelemetryData.t) : list TelemetryData.t :=
  firstn n l.

(** The rows the query of [detect_anomaly_zscore] selects, and the column it
    returns. *)
Definition recent_rows (db : Session) (telemetry_record : TelemetryData.t)
  (window_size : nat) : list TelemetryData.t :=
  limit window_size
    (order_by_timestamp_desc
       (filter (same_series telemetry_record) (telemetry_data db))).

Definition recent_data (db : Session) (telemetry_record : TelemetryData.t)
  (window_size : nat) : list float :=
  map TelemetryData.metric_value (recent_rows db telemetry_record window_size).

(** The score [detect_anomaly_zscore] computes for a value and a window,
    [abs((float(metric_value) - mean) / std_dev)], and the label it gives an
    anomaly. *)
Definition z_score_of (metric_value : float) (values : np.array) : float :=
  PrimFloat.abs ((metric_value - np.mean values) / np.std values)%float.

Definition anomaly_label (z_score : float) : string :=
  ("High Z-score (" ++ format_2f z_score ++ ")")%string.

(** [detect_anomaly_zscore].  A [None] among the values makes [np.array] an
    array of objects, on which [np.mean] raises; a [None] as the record's own
    value makes [float(...)] raise. *)
Definition detect_anomaly_zscore (db : Session) (telemetry_record : TelemetryData.t)
  (window_size : nat) (z_score_threshold : float)
  : Session * result (option Anomaly.t) :=
  let values := recent_data db telemetry_record window_size in
  if List.length values <? 5 then (db, Return None)
  else if existsb is_nan values then (db, Raise TypeError)
  else
    let mean := np.mean values in
    let std_dev := np.std values in
    if (std_dev =? 0)%float then (db, Return None)
    else if is_nan (TelemetryData.metric_value telemetry_record) then (db, Raise TypeError)
    else
      let z_score :=
        PrimFloat.abs ((TelemetryData.metric_value telemetry_record - mean) / std_dev)%float in
      if (z_score_threshold <? z_score)%float then
        let anomaly_data :=
          AnomalyData.mk
            (TelemetryData.id telemetry_record)
            (TelemetryData.device_id telemetry_record)
            (TelemetryData.metric_name telemetry_record)
            (TelemetryData.metric_value telemetry_record)
            (TelemetryData.timestamp telemetry_record)
            ("High Z-score (" ++ format_2f z_score ++ ")")%string
            z_score_threshold in
        match create_anomaly db anomaly_data with
        | (db', Return db_anomaly) => (db', Return (Some db_anomaly))
        | (db', Raise e) => (db', Raise e)
        end
      else (db, Return None).

(** The defaults of the keyword arguments. *)
Definition default_window_size : nat := 50.
Definition default_z_score_threshold : float := 2.5%float.

(** *** The read queries

    [skip], [limit] and [count] are numbers of rows.  A query without
    [order_by] returns the rows in table order. *)

(** [.offset(skip).limit(limit)] *)
Definition page {A : Type} (skip limit : nat) (rows : list A) : list A :=
  firstn limit (skipn skip rows).

(** [order_by] on an integer key, as a stable insertion sort; [first d x] says
    that [d] goes before [x]. *)
Fixpoint insert_by {A : Type} (first : A -> A -> bool) (d : A) (l : list A) : list A :=
  match l with
  | [] => [d]
  | x :: l' => if first d x then d :: l else x :: insert_by first d l'
  end.

Definition order_by {A : Type} (first : A -> A -> bool) (l : list A) : list A :=
  fold_right (insert_by first) [] l.

Definition asc {A : Type} (key : A -> Z) (d x : A) : bool := (key d <=? key x)%Z.
Definition desc {A : Type} (key : A -> Z) (d x : A) : bool := (key x <=? key d)%Z.

Definition of_device (device_id : string) (d : TelemetryData.t) : bool :=
  (TelemetryData.device_id d =? device_id)%string.

Definition of_metric (device_id metric_name : string) (d : TelemetryData.t) : bool :=
  (TelemetryData.device_id d =? device_id)%string
  && (TelemetryData.metric_name d =? metric_name)%string.

Definition get_all_telemetry_data (db : Session) (skip limit : nat)
  : list TelemetryData.t :=
  page skip limit (telemetry_data db).

Definition get_telemetry_by_device (db : Session) (device_id : string)
  (skip limit : nat) : list TelemetryData.t :=
  page skip limit (filter (of_device device_id) (telemetry_data db)).

Definition get_recent_telemetry_by_device (db : Session) (device_id : string)
  (count : nat) : list TelemetryData.t :=
  limit count
    (order_by_timestamp_desc (filter (of_device device_id) (telemetry_data db))).

(** The aggregates see no NaN: SQLite stores a NaN bound to a REAL column as
    NULL, and aggregates pass over NULL.  [func.min] and [func.max] keep the
    first value and replace it by a value that compares below (above) it; none
    on no value.  The summation behind [func.avg] is the database engine's, so
    the aggregate is an argument. *)
Definition not_null (values : list float) : list float :=
  filter (fun v => negb (is_nan v)) values.

Definition sql_min (values : list float) : option float :=
  match values with
  | [] => None
  | v :: values' =>
      Some (fold_left (fun best x => if (x <? best)%float then x else best) values' v)
  end.

Definition sql_max (values : list float) : option float :=
  match values with
  | [] => None
  | v :: values' =>
      Some (fold_left (fun best x => if (best <? x)%float then x else best) values' v)
  end.

Module Summary.
Record t : Type := mk {
  device_id : string;
  metric_name : string;
  min_value : float;
  max_value : float;
  avg_value : float
}.
End Summary.

Definition get_metric_summary_for_device (sql_avg : list float -> float)
  (db : Session) (device_id metric_name : string) : option Summary.t :=
  let values :=
    not_null
      (map TelemetryData.metric_value
         (filter (of_metric device_id metric_name) (telemetry_data db))) in
  match sql_min values, sql_max values with
  | Some min_value, Some max_value =>
      Some (Summary.mk device_id metric_name min_value max_value (sql_avg values))
  | _, _ => None
  end.

Definition get_telemetry_for_plotting (db : Session) (device_id metric_name : string)
  (limit : nat) : list TelemetryData.t :=
  firstn limit
    (order_by (asc TelemetryData.timestamp)
       (filter (of_metric device_id metric_name) (telemetry_data db))).

Definition get_anomalies (db : Session) (skip limit : nat) : list Anomaly.t :=
  page skip limit (order_by (desc Anomaly.timestamp) (anomalies db)).

End crud.

(** ** main.py: the ingestion endpoint

    FastAPI validates the body against [TelemetryDataCreate] before the
    function runs and answers 422 when it does not fit.  The function calls
    [crud.create_telemetry_data] and returns the row; its [except] branch
    needs a failing database, which the model does not have.  The returned
    row is then validated against [TelemetryDataResponse], whose
    [metric_value] is a float: a row whose value is [None] fails it and the
    answer is 500, with the row stored. *)
Module main.

Inductive response : Type :=
| HTTP_200 (db_telemetry : TelemetryData.t)
| HTTP_422
| HTTP_500.

Definition create_telemetry_data (utcnow : Z) (db : Session)
  (telemetry : TelemetryDataCreate.body) : Session * response :=
  match TelemetryDataCreate.validate utcnow telemetry with
  | Raise _ => (db, HTTP_422)
  | Return telemetry =>
      let '(db', db_telemetry) := crud.create_telemetry_data db telemetry in
      if is_nan (TelemetryData.metric_value db_telemetry) then (db', HTTP_500)
      else (db', HTTP_200 db_telemetry)
  end.

(** *** The read endpoints

    An endpoint returns its content or raises an [HTTPException]. *)
Inductive reply (A : Type) : Type :=
| OK (content : A)
| HTTPException (status_code : Z) (detail : string).

Arguments OK {A} content.
Arguments HTTPException {A} status_code detail.

Definition read_all_telemetry_data (db : Session) (skip limit : nat)
  : reply (list TelemetryData.t) :=
  OK (crud.get_all_telemetry_data db skip limit).

Definition read_telemetry_by_device (db : Session) (device_id : string)
  (skip limit : nat) : reply (list TelemetryData.t) :=
  match crud.get_telemetry_by_device db device_id skip limit with
  | [] => HTTPException 404 "No telemetry data found for this device."
  | telemetry_data => OK telemetry_data
  end.

Definition read_recent_telemetry_by_device (db : Session) (device_id : string)
  (count : nat) : reply (list TelemetryData.t) :=
  match crud.get_recent_telemetry_by_device db device_id count with
  | [] => HTTPException 404 "No recent telemetry data found for this device."
  | telemetry_data => OK telemetry_data
  end.

Definition get_metric_summary (sql_avg : list float -> float) (db : Session)
  (device_id metric_name : string) : reply crud.Summary.t :=
  match crud.get_metric_summary_for_device sql_avg db device_id metric_name with
  | None => HTTPException 404 "No data found for this metric or device."
  | Some summary => OK summary
  end.

Definition read_anomalies (db : Session) (skip limit : nat) : reply (list Anomaly.t) :=
  OK (crud.get_anomalies db skip limit).

(** [get_telemetry_plot] up to the drawing: the four series handed to
    matplotlib, or the 404. *)
Module Plot.
Record t : Type := mk {
  timestamps : list Z;
  metric_values : list float;
  anomaly_timestamps : list Z;
  anomaly_values : list float
}.
End Plot.

Definition of_series (device_id metric_name : string) (a : Anomaly.t) : bool :=
  (Anomaly.device_id a =? device_id)%string
  && (Anomaly.metric_name a =? metric_name)%string.

Definition is_in (ts : Z) (timestamps : list Z) : bool :=
  existsb (Z.eqb ts) timestamps.

Definition get_telemetry_plot (db : Session) (device_id metric_name : string)
  : reply Plot.t :=
  let telemetry_data := crud.get_telemetry_for_plotting db device_id metric_name 200 in
  let anomalies :=
    crud.order_by (crud.asc Anomaly.timestamp)
      (filter (of_series device_id metric_name) (anomalies db)) in
  match telemetry_data with
  | [] => HTTPException 404 "No telemetry data found for plotting."
  | _ =>
      let timestamps := map TelemetryData.timestamp telemetry_data in
      let metric_values := map TelemetryData.metric_value telemetry_data in
      let anomaly_timestamps :=
        map Anomaly.timestamp
          (filter (fun a => is_in (Anomaly.timestamp a) timestamps) anomalies) in
      let anomaly_values :=
        map Anomaly.metric_value
          (filter (fun a => is_in (Anomaly.timestamp a) timestamps) anomalies) in
      OK (Plot.mk timestamps metric_values anomaly_timestamps anomaly_values)
  end.

End main.

(** ** The statistics the specification names, in exact arithmetic

    The value of a binary64 number as a rational, the arithmetic mean and the
    population variance of a window of rationals.  The population standard
    deviation is positive when the variance is; for a positive deviation and
    a threshold that is not negative, [abs((v - mean)/deviation) > t] is
    [score_above], both sides squared. *)

Definition exact (x : float) : Q :=
  match Prim2SF x with
  | S754_finite s m e => ((if s then -1 else 1) * inject_Z (Z.pos m) * 2 ^ e)%Q
  | _ => 0%Q
  end.

Definition Qsum (l : list Q) : Q := fold_right Qplus 0%Q l.

Definition population_mean (window : list Q) : Q :=
  (Qsum window / inject_Z (Z.of_nat (List.length window)))%Q.

Definition population_variance (window : list Q) : Q :=
  (Qsum (map (fun x => (x - population_mean window) ^ 2) window)
   / inject_Z (Z.of_nat (List.length window)))%Q.

Definition score_above (v : Q) (window : list Q) (t : Q) : Prop :=
  (t ^ 2 * population_variance window < (v - population_mean window) ^ 2)%Q.

(** ** Store states the application can reach *)

Definition empty_db : Session := mkSession [] [].

Inductive step : Session -> Session -> Prop :=
| step_ingest utcnow db body :
    step db (fst (main.create_telemetry_data utcnow db body))
| step_create_telemetry_data db telemetry :
    step db (fst (crud.create_telemetry_data db telemetry))
| step_create_anomaly db anomaly_data :
    step db (fst (crud.create_anomaly db anomaly_data))
| step_detect db telemetry_record window_size z_score_threshold :
    step db (fst (crud.detect_anomaly_zscore db telemetry_record window_size z_score_threshold)).

Inductive reachable : Session -> Prop :=
| reachable_empty : reachable empty_db
| reachable_step db db' : reachable db -> step db db' -> reachable db'.

(** Any number of operations, one after the other. *)
Inductive steps : Session -> Session -> Prop :=
| steps_none db : steps db db
| steps_more db db' db'' : steps db db' -> step db' db'' -> steps db db''.

(** Whether a row of [anomalies] points at the reading, and how many do. *)
Definition points_at (telemetry_id : Z) (a : Anomaly.t) : bool :=
  (Anomaly.telemetry_id a =? telemetry_id)%Z.

Definition anomalies_of (db : Session) (telemetry_id : Z) : nat :=
  List.length (filter (points_at telemetry_id) (anomalies db)).

(** [d1] is at least as recent as [d2]. *)
Definition not_older (d1 d2 : TelemetryData.t) : Prop :=
  (TelemetryData.timestamp d2 <= TelemetryData.timestamp d1)%Z.

(** ** Scenarios *)

(** The body with all five keys. *)
Definition body_of (ts : Z) (device_id metric_name : string) (v : float)
  (unit : option string) : TelemetryDataCreate.body :=
  TelemetryDataCreate.mk_body (TelemetryDataCreate.Value ts)
    (TelemetryDataCreate.Value device_id) (TelemetryDataCreate.Value metric_name)
    (TelemetryDataCreate.Value v) (TelemetryDataCreate.Value unit).

Definition reading_body (ts : Z) (v : float) : TelemetryDataCreate.body :=
  body_of ts "sensor-alpha-001" "temperature" v (Some "Celsius"%string).

(** The database after the values of [vs] were posted one after the other, at
    instants [ts], [ts+1], ... *)
Fixpoint post_all (ts : Z) (vs : list float) (db : Session) : Session :=
  match vs with
  | [] => db
  | v :: vs' => post_all (ts + 1) vs' (fst (main.create_telemetry_data ts db (reading_body ts v)))
  end.

Definition db_of (vs : list float) : Session := post_all 1 vs empty_db.

(** The reading stored last. *)
Definition newest (db : Session) : TelemetryData.t :=
  last (telemetry_data db) (TelemetryData.mk 0 0 EmptyString EmptyString 0 None).

(** The anomaly recorded last. *)
Definition newest_anomaly (db : Session) : Anomaly.t :=
  last (anomalies db) (Anomaly.mk 0 0 EmptyString EmptyString 0 0 None None).

#[local] Set Warnings "-inexact-float".

(** Window [10,10,10,10,10], new value 10. *)
Definition scenario_A : Session := db_of [10; 10; 10; 10; 10; 10]%float.
(** Window [10,11,9,10,10], new value 30. *)
Definition scenario_B : Session := db_of [10; 11; 9; 10; 10; 30]%float.
(** Three prior values only. *)
Definition scenario_C : Session := db_of [1; 2; 3; 100]%float.
(** Window [100,102,98,101,99], new value 103. *)
Definition scenario_D : Session := db_of [100; 102; 98; 101; 99; 103]%float.
(** Window [10,11,9,10,12], new value 13: the score is 2.5495... *)
Definition scenario_E : Session := db_of [10; 11; 9; 10; 12; 13]%float.
(** Window [1e-200,0,0,0,0], new value 1. *)
Definition scenario_tiny : Session := db_of [0; 0; 0; 0; 1e-200; 1]%float.
(** Five readings of 59.97, then 59.98. *)
Definition scenario_flat : Session :=
  db_of [59.97; 59.97; 59.97; 59.97; 59.97; 59.98]%float.
(** Two devices, two metrics, timestamps out of order; the last post is the
    evaluated reading. *)
Definition mixed_bodies : list TelemetryDataCreate.body :=
  [ body_of 30 "sensor-alpha-001" "temperature" 21 None;
    body_of 10 "sensor-alpha-001" "temperature" 22 None;
    body_of 20 "sensor-beta-002" "temperature" 50 None;
    body_of 40 "sensor-alpha-001" "humidity" 60 None;
    body_of 20 "sensor-alpha-001" "temperature" 23 None;
    body_of 50 "sensor-alpha-001" "temperature" 24 None ].

Definition scenario_mixed : Session :=
  fold_left (fun db b => fst (main.create_telemetry_data 0 db b)) mixed_bodies empty_db.

(** Scenario B after the detector has run once on the new reading. *)
Definition scenario_B_flagged : Session :=
  fst (crud.detect_anomaly_zscore scenario_B (newest scenario_B)
         crud.default_window_size crud.default_z_score_threshold).

(** ** The branches of [detect_anomaly_zscore]

    The dictionary it builds, and its ways out: too few values, a [None]
    among the values, zero deviation, a [None] as the value to score, score
    not above the threshold, score above it (where the outcome is that of
    [create_anomaly]). *)

Definition anomaly_data_of (r : TelemetryData.t) (z th : float) : crud.AnomalyData.t :=
  crud.AnomalyData.mk (TelemetryData.id r) (TelemetryData.device_id r)
    (TelemetryData.metric_name r) (TelemetryData.metric_value r)
    (TelemetryData.timestamp r) (crud.anomaly_label z) th.

Inductive detect_branch (db : Session) (r : TelemetryData.t) (ws : nat) (th : float)
  : Session * result (option Anomaly.t) -> Prop :=
| branch_few :
    List.length (crud.recent_data db r ws) < 5 ->
    detect_branch db r ws th (db, Return None)
| branch_none_in_window :
    5 <= List.length (crud.recent_data db r ws) ->
    existsb is_nan (crud.recent_data db r ws) = true ->
    detect_branch db r ws th (db, Raise TypeError)
| branch_flat :
    5 <= List.length (crud.recent_data db r ws) ->
    existsb is_nan (crud.recent_data db r ws) = false ->
    (np.std (crud.recent_data db r ws) =? 0)%float = true ->
    detect_branch db r ws th (db, Return None)
| branch_none_value :
    5 <= List.length (crud.recent_data db r ws) ->
    existsb is_nan (crud.recent_data db r ws) = false ->
    (np.std (crud.recent_data db r ws) =? 0)%float = false ->
    is_nan (TelemetryData.metric_value r) = true ->
    detect_branch db r ws th (db, Raise TypeError)
| branch_below :
    5 <= List.length (crud.recent_data db r ws) ->
    existsb is_nan (crud.recent_data db r ws) = false ->
    (np.std (crud.recent_data db r ws) =? 0)%float = false ->
    is_nan (TelemetryData.metric_value r) = false ->
    (th <? crud.z_score_of (TelemetryData.metric_value r) (crud.recent_data db r ws))%float = false ->
    detect_branch db r ws th (db, Return None)
| branch_above out :
    5 <= List.length (crud.recent_data db r ws) ->
    existsb is_nan (crud.recent_data db r ws) = false ->
    (np.std (crud.recent_data db r ws) =? 0)%float = false ->
    is_nan (TelemetryData.metric_value r) = false ->
    (th <? crud.z_score_of (TelemetryData.metric_value r) (crud.recent_data db r ws))%float = true ->
    out = match crud.create_anomaly db
                  (anomaly_data_of r
                     (crud.z_score_of (TelemetryData.metric_value r) (crud.recent_data db r ws)) th)
          with
          | (db', Return a) => (db', Return (Some a))
          | (db', Raise e) => (db', Raise e)
          end ->
    detect_branch db r ws th out.

(** Case analysis on a comparison of two [spec_float]s. *)
Ltac sf_cases :=
  repeat match goal with s : bool |- _ => destruct s end;
  cbn; try congruence;
  repeat match goal with
  | |- context [Z.compare ?a ?b] => destruct (Z.compare_spec a b); subst; cbn
  | |- context [Pos.compare_cont Eq ?a ?b] =>
      change (Pos.compare_cont Eq a b) with (Pos.compare a b);
      destruct (Pos.compare_spec a b); subst; cbn
  end;
  try congruence; try lia.


(** * Properties *)

(** ** Order of binary64 numbers

    The comparisons of primitive floats are those of their [spec_float]
    images, where they are decided by case analysis. *)

Lemma SFleb_ltb_trans (a b c : spec_float) :
  SFleb a b = true -> SFltb b c = true -> SFltb a c = true.
Proof.
  unfold SFleb, SFltb.
  destruct a as [sa|sa| |sa ma ea], b as [sb|sb| |sb mb eb], c as [sc|sc| |sc mc ec];
    cbn; try congruence; sf_cases.
Qed.

Lemma SFltb_zero_neq (f : spec_float) :
  SFltb (S754_zero false) f = true -> SFeqb f (S754_zero false) = false.
Proof.
  unfold SFltb, SFeqb; destruct f as [s|s| |s m e]; cbn; try congruence; sf_cases.
Qed.

Lemma SFeqb_not_ltb (a b : spec_float) : SFeqb a b = true -> SFltb b a = false.
Proof.
  unfold SFltb, SFeqb.
  destruct a as [sa|sa| |sa ma ea], b as [sb|sb| |sb mb eb];
    cbn; try congruence; sf_cases.
Qed.

Lemma leb_ltb_trans (a b c : float) :
  (a <=? b)%float = true -> (b <? c)%float = true -> (a <? c)%float = true.
Proof.
  rewrite FloatAxioms.leb_spec, !FloatAxioms.ltb_spec. apply SFleb_ltb_trans.
Qed.

Lemma ltb_zero_neq (s : float) : (0 <? s)%float = true -> (s =? 0)%float = false.
Proof.
  rewrite FloatAxioms.ltb_spec, FloatAxioms.eqb_spec. apply SFltb_zero_neq.
Qed.

Lemma eqb_not_ltb (a b : float) : (a =? b)%float = true -> (b <? a)%float = false.
Proof.
  rewrite FloatAxioms.ltb_spec, FloatAxioms.eqb_spec. apply SFeqb_not_ltb.
Qed.

Lemma SFeqb_refl_false (f : spec_float) : SFeqb f f = false -> f = S754_nan.
Proof.
  unfold SFeqb. destruct f as [s|s| |s m e]; cbn; try reflexivity.
  - destruct s; discriminate.
  - destruct s; discriminate.
  - rewrite Z.compare_refl.
    change (Pos.compare_cont Eq m m) with (Pos.compare m m).
    rewrite Pos.compare_refl. destruct s; discriminate.
Qed.

Lemma is_nan_ltb (th z : float) : is_nan th = true -> (th <? z)%float = false.
Proof.
  unfold is_nan. rewrite negb_true_iff, FloatAxioms.eqb_spec, FloatAxioms.ltb_spec.
  intros H. apply SFeqb_refl_false in H. rewrite H. reflexivity.
Qed.

(** Nothing is below a NaN, and an absolute value has no sign. *)
Lemma ltb_nan_r (x y : float) : Prim2SF y = S754_nan -> (x <? y)%float = false.
Proof.
  intros H. rewrite FloatAxioms.ltb_spec, H. destruct (Prim2SF x); reflexivity.
Qed.

Lemma abs_sign (x : float) :
  match Prim2SF (PrimFloat.abs x) with
  | S754_zero s | S754_infinity s | S754_finite s _ _ => s = false
  | S754_nan => True
  end.
Proof.
  rewrite FloatAxioms.abs_spec. destruct (Prim2SF x); cbn; auto.
Qed.

(** A zero is not a NaN, so [sqlite_real] keeps whether a value is one. *)
Lemma is_nan_sqlite_real (v : float) : is_nan (sqlite_real v) = is_nan v.
Proof.
  unfold sqlite_real. destruct (v =? 0)%float eqn:E; [|reflexivity].
  unfold is_nan. rewrite !FloatAxioms.eqb_spec in *.
  change (Prim2SF 0) with (S754_zero false) in *.
  destruct (Prim2SF v) as [s|s| |s m e]; cbn in E;
    try discriminate E; try (destruct s; discriminate E).
  destruct s; reflexivity.
Qed.

(** ** The pairwise sum and the printed score *)

Lemma pairwise_sum_rec_unfold (fuel : nat) (a : np.array) :
  np.pairwise_sum_rec fuel a
  = if List.length a <? 8 then np.loop_add neg_zero a
    else if List.length a <=? 128 then
      let '(r, rest) := np.unrolled (List.length a / 8 - 1) (firstn 8 a) (skipn 8 a) in
      np.loop_add (np.tree8 r) rest
    else
      match fuel with
      | O => nan
      | S f =>
          let n2 := List.length a / 2 - (List.length a / 2) mod 8 in
          (np.pairwise_sum_rec f (firstn n2 a) + np.pairwise_sum_rec f (skipn n2 a))%float
      end.
Proof. destruct fuel; reflexivity. Qed.

Lemma halving_bounds (n : nat) :
  128 < n ->
  0 < n / 2 - (n / 2) mod 8 /\ n / 2 - (n / 2) mod 8 < n.
Proof.
  intros Hn.
  pose proof (Nat.div_mod_eq n 2) as H1.
  pose proof (Nat.mod_upper_bound n 2 ltac:(lia)) as H2.
  pose proof (Nat.mod_upper_bound (n / 2) 8 ltac:(lia)) as H3.
  lia.
Qed.

(** The fuel of [pairwise_sum] is enough: any larger amount gives the same
    sum, so the out-of-fuel branch is never the result. *)
Lemma pairwise_sum_rec_fuel (f1 : nat) :
  forall (f2 : nat) (a : np.array),
    List.length a <= f1 -> List.length a <= f2 ->
    np.pairwise_sum_rec f1 a = np.pairwise_sum_rec f2 a.
Proof.
  induction f1 as [|f1 IH]; intros f2 a H1 H2;
    rewrite (pairwise_sum_rec_unfold _ a), (pairwise_sum_rec_unfold f2 a).
  - assert (List.length a = 0) as -> by lia. reflexivity.
  - destruct (List.length a <? 8) eqn:E8; [reflexivity|].
    destruct (Nat.leb_spec (List.length a) 128) as [E|E]; [reflexivity|].
    destruct f2 as [|f2]; [lia|].
    destruct (halving_bounds _ E) as [Hlo Hhi]. cbv zeta.
    set (n2 := List.length a / 2 - (List.length a / 2) mod 8) in *.
    rewrite (IH f2 (firstn n2 a)), (IH f2 (skipn n2 a)); try reflexivity;
      rewrite ?length_firstn, ?length_skipn; lia.
Qed.

(** Up to seven values the sum is the plain left-to-right one. *)
Lemma sum_short (a : np.array) :
  List.length a < 8 -> np.sum a = (neg_zero + fold_left PrimFloat.add a neg_zero)%float.
Proof.
  intros Hn. unfold np.sum, np.pairwise_sum. rewrite pairwise_sum_rec_unfold.
  destruct (Nat.ltb_spec (List.length a) 8); [reflexivity|lia].
Qed.

Lemma hundredths_exact (m : positive) (e : Z) :
  (0 <= e)%Z -> hundredths m e = (Z.pos m * 100 * 2 ^ e)%Z.
Proof.
  intros He. unfold hundredths. destruct (Z.leb_spec 0 e); [reflexivity|lia].
Qed.

(** Below the binary point, [hundredths] is a nearest integer to
    [m * 100 / 2^(-e)], and the even one of the two when they are equally
    near. *)
Lemma hundredths_nearest (m : positive) (e : Z) :
  (e < 0)%Z ->
  (2 * Z.abs (hundredths m e * 2 ^ (- e) - Z.pos m * 100) <= 2 ^ (- e))%Z
  /\ ((2 * Z.abs (hundredths m e * 2 ^ (- e) - Z.pos m * 100) = 2 ^ (- e))%Z ->
      Z.even (hundredths m e) = true).
Proof.
  intros He. unfold hundredths.
  destruct (Z.leb_spec 0 e) as [|_]; [lia|]. cbv zeta.
  set (d := (2 ^ (- e))%Z). set (n := (Z.pos m * 100)%Z).
  assert (Hd : (0 < d)%Z) by (apply Z.pow_pos_nonneg; lia).
  pose proof (Z.div_mod n d ltac:(lia)) as Hdm.
  pose proof (Z.mod_pos_bound n d Hd) as Hr.
  set (q := (n / d)%Z) in *. set (r := (n mod d)%Z) in *.
  destruct (Z.ltb_spec d (2 * r)) as [H1|H1].
  - split; [nia|]. intros H. exfalso. nia.
  - destruct (Z.eqb_spec (2 * r) d) as [H2|H2]; cbn [andb].
    + destruct (Z.odd q) eqn:Ho.
      * split; [nia|]. intros _. rewrite Z.even_add, <- Z.negb_odd, Ho. reflexivity.
      * split; [nia|]. intros _. rewrite <- Z.negb_odd, Ho. reflexivity.
    + split; [nia|]. intros H. exfalso. nia.
Qed.

(** ** The anomalies table under [create_anomaly] *)

Lemma existsb_filter_nil {A : Type} (f : A -> bool) (l : list A) :
  existsb f l = false <-> List.length (filter f l) = 0.
Proof.
  induction l as [|x l IH]; cbn; [tauto|].
  destruct (f x); cbn; [split; discriminate | exact IH].
Qed.

Lemma filter_length_app {A : Type} (f : A -> bool) (l l' : list A) :
  List.length (filter f (l ++ l')) = List.length (filter f l) + List.length (filter f l').
Proof. rewrite filter_app, length_app. reflexivity. Qed.

Lemma create_anomaly_cases (db : Session) (d : crud.AnomalyData.t) :
  (0 < anomalies_of db (crud.AnomalyData.telemetry_id d)
   /\ crud.create_anomaly db d = (db, Raise IntegrityError))
  \/ (anomalies_of db (crud.AnomalyData.telemetry_id d) = 0
      /\ exists a,
           crud.create_anomaly db d
           = (mkSession (telemetry_data db) (anomalies db ++ [a]), Return a)
           /\ Anomaly.telemetry_id a = crud.AnomalyData.telemetry_id d
           /\ Anomaly.device_id a = crud.AnomalyData.device_id d
           /\ Anomaly.metric_name a = crud.AnomalyData.metric_name d
           /\ Anomaly.metric_value a = sqlite_real (crud.AnomalyData.metric_value d)
           /\ Anomaly.timestamp a = crud.AnomalyData.timestamp d
           /\ Anomaly.anomaly_type a = Some (crud.AnomalyData.anomaly_type d)
           /\ Anomaly.threshold_used a
              = sqlite_real_nullable (crud.AnomalyData.threshold_used d)).
Proof.
  unfold crud.create_anomaly, anomalies_of.
  fold (points_at (crud.AnomalyData.telemetry_id d)).
  destruct (existsb _ (anomalies db)) eqn:E.
  - left. split; [|reflexivity].
    destruct (List.length (filter _ (anomalies db))) eqn:L; [|lia].
    apply existsb_filter_nil in L. congruence.
  - right. split; [apply existsb_filter_nil; exact E|].
    eexists. split; [reflexivity|]. cbn. repeat split.
Qed.

Lemma create_anomaly_telemetry (db : Session) (d : crud.AnomalyData.t) :
  telemetry_data (fst (crud.create_anomaly db d)) = telemetry_data db.
Proof.
  destruct (create_anomaly_cases db d) as [[_ ->]|[_ (a & -> & _)]]; reflexivity.
Qed.

(** ** What [detect_anomaly_zscore] does, branch by branch *)

Lemma detect_branches (db : Session) (r : TelemetryData.t) (ws : nat) (th : float) :
  detect_branch db r ws th (crud.detect_anomaly_zscore db r ws th).
Proof.
  unfold crud.detect_anomaly_zscore. cbv zeta.
  change (PrimFloat.abs ((TelemetryData.metric_value r - np.mean (crud.recent_data db r ws))
                         / np.std (crud.recent_data db r ws)))%float
    with (crud.z_score_of (TelemetryData.metric_value r) (crud.recent_data db r ws)).
  change ("High Z-score ("
          ++ format_2f (crud.z_score_of (TelemetryData.metric_value r)
                          (crud.recent_data db r ws)) ++ ")")%string
    with (crud.anomaly_label (crud.z_score_of (TelemetryData.metric_value r)
                                (crud.recent_data db r ws))).
  destruct (Nat.ltb_spec (List.length (crud.recent_data db r ws)) 5) as [Hn|Hn].
  - now apply branch_few.
  - destruct (existsb is_nan (crud.recent_data db r ws)) eqn:Hw.
    + now apply branch_none_in_window.
    + destruct (np.std (crud.recent_data db r ws) =? 0)%float eqn:Hs.
      * now apply branch_flat.
      * destruct (is_nan (TelemetryData.metric_value r)) eqn:Hv.
        -- now apply branch_none_value.
        -- destruct (th <? crud.z_score_of _ _)%float eqn:Hz.
           ++ now apply branch_above.
           ++ now apply branch_below.
Qed.

Lemma detect_telemetry (db : Session) (r : TelemetryData.t) (ws : nat) (th : float) :
  telemetry_data (fst (crud.detect_anomaly_zscore db r ws th)) = telemetry_data db.
Proof.
  destruct (detect_branches db r ws th) as [ | | | | |out _ _ _ _ _ ->]; try reflexivity.
  pose proof (create_anomaly_telemetry db
    (anomaly_data_of r
       (crud.z_score_of (TelemetryData.metric_value r) (crud.recent_data db r ws)) th)) as H.
  destruct (crud.create_anomaly _ _) as [db' [a|e]]; exact H.
Qed.

Lemma detect_none_unchanged (db : Session) (r : TelemetryData.t) (ws : nat) (th : float) :
  snd (crud.detect_anomaly_zscore db r ws th) = Return None ->
  crud.detect_anomaly_zscore db r ws th = (db, Return None).
Proof.
  destruct (detect_branches db r ws th) as [ | | | | |out _ _ _ _ _ ->];
    try reflexivity; try discriminate.
  destruct (crud.create_anomaly _ _) as [db' [a|e]]; cbn; discriminate.
Qed.

(** A call that raises leaves the session as it was; it raises [TypeError] on
    a [None], or [IntegrityError] when the reading has an anomaly already. *)
Lemma detect_raise_unchanged (db : Session) (r : TelemetryData.t) (ws : nat) (th : float)
  (e : exception) :
  snd (crud.detect_anomaly_zscore db r ws th) = Raise e ->
  crud.detect_anomaly_zscore db r ws th = (db, Raise e)
  /\ (e = TypeError
      \/ e = IntegrityError /\ 0 < anomalies_of db (TelemetryData.id r)).
Proof.
  destruct (detect_branches db r ws th) as [ | | | | |out _ _ _ _ _ ->];
    try discriminate.
  - cbn. intros E. injection E as <-. auto.
  - cbn. intros E. injection E as <-. auto.
  - destruct (create_anomaly_cases db
      (anomaly_data_of r
         (crud.z_score_of (TelemetryData.metric_value r) (crud.recent_data db r ws)) th))
      as [[Hc ->]|[_ (a & -> & _)]]; cbn; [|discriminate].
    intros E. injection E as <-. split; [reflexivity|]. right. split; [reflexivity|exact Hc].
Qed.

(** What a returned anomaly says about the call that returned it. *)
Lemma detect_some_inv (db db' : Session) (r : TelemetryData.t) (ws : nat) (th : float)
  (a : Anomaly.t) :
  crud.detect_anomaly_zscore db r ws th = (db', Return (Some a)) ->
  let values := crud.recent_data db r ws in
  let z := crud.z_score_of (TelemetryData.metric_value r) values in
  5 <= List.length values
  /\ (np.std values =? 0)%float = false
  /\ (th <? z)%float = true
  /\ anomalies_of db (TelemetryData.id r) = 0
  /\ db' = mkSession (telemetry_data db) (anomalies db ++ [a])
  /\ Anomaly.telemetry_id a = TelemetryData.id r
  /\ Anomaly.device_id a = TelemetryData.device_id r
  /\ Anomaly.metric_name a = TelemetryData.metric_name r
  /\ Anomaly.metric_value a = sqlite_real (TelemetryData.metric_value r)
  /\ Anomaly.timestamp a = TelemetryData.timestamp r
  /\ Anomaly.anomaly_type a = Some (crud.anomaly_label z)
  /\ Anomaly.threshold_used a = Some (sqlite_real th)
  /\ existsb is_nan values = false
  /\ is_nan (TelemetryData.metric_value r) = false.
Proof.
  intros H values z.
  destruct (detect_branches db r ws th) as [ | | | | |out Hn Hw Hs Hv Hz ->];
    try discriminate.
  fold values in Hn, Hw, Hs, Hz, H. fold z in Hz, H.
  destruct (create_anomaly_cases db (anomaly_data_of r z th))
    as [[_ Hc]|[H0 (a0 & Hc & Hf)]]; rewrite Hc in H; [discriminate|].
  injection H as <- <-. cbn in H0, Hf.
  assert (Hth : sqlite_real_nullable th = Some (sqlite_real th)).
  { unfold sqlite_real_nullable. destruct (is_nan th) eqn:En; [|reflexivity].
    rewrite (is_nan_ltb th z En) in Hz. discriminate Hz. }
  rewrite Hth in Hf. tauto.
Qed.

(** Above the threshold, with no anomaly recorded yet for the reading, an
    anomaly is created and returned. *)
Lemma detect_above_fresh (db : Session) (r : TelemetryData.t) (ws : nat) (th : float) :
  let values := crud.recent_data db r ws in
  let z := crud.z_score_of (TelemetryData.metric_value r) values in
  5 <= List.length values ->
  existsb is_nan values = false ->
  (np.std values =? 0)%float = false ->
  is_nan (TelemetryData.metric_value r) = false ->
  (th <? z)%float = true ->
  anomalies_of db (TelemetryData.id r) = 0 ->
  exists a,
    crud.detect_anomaly_zscore db r ws th
    = (mkSession (telemetry_data db) (anomalies db ++ [a]), Return (Some a)).
Proof.
  intros values z Hn Hw Hs Hv Hz H0. subst values z.
  destruct (detect_branches db r ws th)
    as [Hn'|Hn' Hw'|Hn' Hw' Hs'|Hn' Hw' Hs' Hv'|Hn' Hw' Hs' Hv' Hz'|out _ _ _ _ _ ->];
    try lia; try congruence.
  destruct (create_anomaly_cases db
              (anomaly_data_of r
                 (crud.z_score_of (TelemetryData.metric_value r)
                    (crud.recent_data db r ws)) th))
    as [[Hc _]|[_ (a & -> & _)]].
  - cbn in Hc. lia.
  - exists a. reflexivity.
Qed.

(** Above the threshold, with an anomaly already recorded for the reading, the
    insert is refused. *)
Lemma detect_above_flagged (db : Session) (r : TelemetryData.t) (ws : nat) (th : float) :
  let values := crud.recent_data db r ws in
  let z := crud.z_score_of (TelemetryData.metric_value r) values in
  5 <= List.length values ->
  existsb is_nan values = false ->
  (np.std values =? 0)%float = false ->
  is_nan (TelemetryData.metric_value r) = false ->
  (th <? z)%float = true ->
  0 < anomalies_of db (TelemetryData.id r) ->
  crud.detect_anomaly_zscore db r ws th = (db, Raise IntegrityError).
Proof.
  intros values z Hn Hw Hs Hv Hz H0. subst values z.
  destruct (detect_branches db r ws th)
    as [Hn'|Hn' Hw'|Hn' Hw' Hs'|Hn' Hw' Hs' Hv'|Hn' Hw' Hs' Hv' Hz'|out _ _ _ _ _ ->];
    try lia; try congruence.
  destruct (create_anomaly_cases db
              (anomaly_data_of r
                 (crud.z_score_of (TelemetryData.metric_value r)
                    (crud.recent_data db r ws)) th))
    as [[_ ->]|[Hc _]]; [reflexivity|].
  cbn in Hc. lia.
Qed.

(** A score that is not above the threshold gives [None], once the values
    and the value to score are numbers. *)
Lemma detect_not_above (db : Session) (r : TelemetryData.t) (ws : nat) (th : float) :
  existsb is_nan (crud.recent_data db r ws) = false ->
  is_nan (TelemetryData.metric_value r) = false ->
  (th <? crud.z_score_of (TelemetryData.metric_value r) (crud.recent_data db r ws))%float
  = false ->
  crud.detect_anomaly_zscore db r ws th = (db, Return None).
Proof.
  intros Hw Hv Hz.
  destruct (detect_branches db r ws th) as [ | | | | |out _ _ _ _ Hz' _];
    try reflexivity; congruence.
Qed.

Lemma detect_none_inv (db db' : Session) (r : TelemetryData.t) (ws : nat) (th : float) :
  crud.detect_anomaly_zscore db r ws th = (db', Return None) ->
  List.length (crud.recent_data db r ws) < 5
  \/ existsb is_nan (crud.recent_data db r ws) = false
     /\ ((np.std (crud.recent_data db r ws) =? 0)%float = true
         \/ is_nan (TelemetryData.metric_value r) = false
            /\ (th <? crud.z_score_of (TelemetryData.metric_value r)
                        (crud.recent_data db r ws))%float = false).
Proof.
  destruct (detect_branches db r ws th) as [ | | | | |out _ _ _ _ _ ->];
    auto; try discriminate.
  destruct (crud.create_anomaly _ _) as [db1 [a|e]]; discriminate.
Qed.

Lemma detect_few (db : Session) (r : TelemetryData.t) (ws : nat) (th : float) :
  List.length (crud.recent_data db r ws) < 5 ->
  crud.detect_anomaly_zscore db r ws th = (db, Return None).
Proof.
  intros Hn. unfold crud.detect_anomaly_zscore.
  destruct (Nat.ltb_spec (List.length (crud.recent_data db r ws)) 5); [reflexivity|lia].
Qed.

(** Zero computed deviation of values that are numbers: [None], before the
    score is computed. *)
Lemma detect_flat (db : Session) (r : TelemetryData.t) (ws : nat) (th : float) :
  existsb is_nan (crud.recent_data db r ws) = false ->
  (np.std (crud.recent_data db r ws) =? 0)%float = true ->
  crud.detect_anomaly_zscore db r ws th = (db, Return None).
Proof.
  intros Hw Hs.
  destruct (detect_branches db r ws th) as [ | | | | |out _ _ Hs' _ _ _];
    try reflexivity; congruence.
Qed.

(** A returned anomaly is the reading's only one. *)
Lemma detect_some_count (db db' : Session) (r : TelemetryData.t) (ws : nat) (th : float)
  (a : Anomaly.t) :
  crud.detect_anomaly_zscore db r ws th = (db', Return (Some a)) ->
  anomalies_of db' (TelemetryData.id r) = 1.
Proof.
  intros H. apply detect_some_inv in H. cbv zeta in H.
  destruct H as (_ & _ & _ & H0 & -> & Hid & _).
  unfold anomalies_of in *. cbn [anomalies].
  rewrite filter_length_app, H0. cbn. unfold points_at. rewrite Hid, Z.eqb_refl.
  reflexivity.
Qed.

(** A stored value is one the column keeps as it is, in every state the
    operations can reach. *)
Lemma sqlite_real_idem (v : float) : sqlite_real (sqlite_real v) = sqlite_real v.
Proof.
  unfold sqlite_real. destruct (v =? 0)%float eqn:E; [reflexivity|].
  rewrite E. reflexivity.
Qed.

Lemma step_stored_values (db db' : Session) :
  step db db' ->
  Forall (fun d => sqlite_real (TelemetryData.metric_value d) = TelemetryData.metric_value d)
    (telemetry_data db) ->
  Forall (fun d => sqlite_real (TelemetryData.metric_value d) = TelemetryData.metric_value d)
    (telemetry_data db').
Proof.
  intros [utcnow db0 body|db0 telemetry|db0 d|db0 r ws th] H.
  - unfold main.create_telemetry_data.
    destruct (TelemetryDataCreate.validate utcnow body) as [t|e]; [|exact H].
    unfold crud.create_telemetry_data. cbv beta iota zeta.
    destruct (is_nan _); cbn [fst telemetry_data];
      (apply Forall_app; split; [exact H|]);
      (constructor; [apply sqlite_real_idem|constructor]).
  - cbn [fst crud.create_telemetry_data telemetry_data].
    apply Forall_app. split; [exact H|].
    constructor; [apply sqlite_real_idem|constructor].
  - rewrite create_anomaly_telemetry. exact H.
  - rewrite detect_telemetry. exact H.
Qed.

Lemma reachable_stored_values (db : Session) :
  reachable db ->
  Forall (fun d => sqlite_real (TelemetryData.metric_value d) = TelemetryData.metric_value d)
    (telemetry_data db).
Proof.
  induction 1 as [|db db' _ IH Hstep]; [constructor|].
  exact (step_stored_values db db' Hstep IH).
Qed.

(** ** The claims *)

(** C3. When the fetched window holds fewer than 5 values (none included),
    [detect_anomaly_zscore] returns [None] whatever the new reading's value and
    the threshold, and writes nothing: no anomaly row is created. *)
Theorem detect_small_window (db : Session) (r : TelemetryData.t) (ws : nat) (th : float) :
  List.length (crud.recent_data db r ws) < 5 ->
  crud.detect_anomaly_zscore db r ws th = (db, Return None)
  /\ anomalies (fst (crud.detect_anomaly_zscore db r ws th)) = anomalies db.
Proof.
  intros Hn. rewrite (detect_few db r ws th Hn). split; reflexivity.
Qed.

(** Scenario C: three prior values, new value 100. *)
Lemma detect_small_window_scenario_C :
  List.length (crud.recent_data scenario_C (newest scenario_C) 50) = 3
  /\ crud.detect_anomaly_zscore scenario_C (newest scenario_C) 50 2.5
     = (scenario_C, Return None).
Proof.
  split; [reflexivity|].
  apply (detect_small_window scenario_C (newest scenario_C) 50 2.5).
  vm_compute. lia.
Defined.

(** Scenario A: window [10,10,10,10,10], new value 10; the computed deviation
    is zero and the outcome is [None]. *)
Lemma detect_flat_scenario_A :
  crud.recent_data scenario_A (newest scenario_A) 50 = [10; 10; 10; 10; 10]%float
  /\ TelemetryData.metric_value (newest scenario_A) = 10%float
  /\ (np.std [10; 10; 10; 10; 10] =? 0)%float = true
  /\ crud.detect_anomaly_zscore scenario_A (newest scenario_A) 50 2.5
     = (scenario_A, Return None).
Proof.
  split; [reflexivity|]. split; [reflexivity|]. split; [reflexivity|].
  apply detect_flat; reflexivity.
Qed.

(** C4: what the code does on a window of identical values.  Five values
    59.97 do not sum to five times 59.97 in binary64: the mean comes out as
    59.970000000000006, the deviation as 7.1e-15 and not zero, the zero test
    is passed over, and the new value 59.98 is recorded as an anomaly. *)
Theorem identical_window_flagged :
  crud.recent_data scenario_flat (newest scenario_flat) 50 = repeat 59.97%float 5
  /\ np.mean (repeat 59.97%float 5) = 59.970000000000006%float
  /\ np.std (repeat 59.97%float 5) = 7.1054273576010019e-15%float
  /\ (np.std (repeat 59.97%float 5) =? 0)%float = false
  /\ exists a,
       crud.detect_anomaly_zscore scenario_flat (newest scenario_flat) 50 2.5
       = (mkSession (telemetry_data scenario_flat) [a], Return (Some a))
       /\ Anomaly.metric_value a = 59.98%float
       /\ Anomaly.anomaly_type a = Some "High Z-score (1407374883552.00)"%string.
Proof.
  split; [reflexivity|]. split; [reflexivity|]. split; [reflexivity|].
  split; [reflexivity|].
  eexists. split; [|split]; vm_compute; reflexivity.
Qed.

(** C8. When [detect_anomaly_zscore] returns an anomaly, exactly that one row
    has been appended to [anomalies] (and it is the only row for the reading);
    its device, metric, value and timestamp are the reading's, its
    [telemetry_id] is the reading's id, [threshold_used] is the threshold of the
    call (the two floats as their columns keep them, a zero without its
    sign; the value of a stored reading is kept as it is) and [anomaly_type]
    is "High Z-score (s)" where s is the score printed with two decimals.
    The score is not a NaN and has no sign; the decimals
    printed for a finite score [m * 2^e] are those of the hundredths nearest
    to it, the even one of two equally near. *)
Theorem detect_records_anomaly (db db' : Session) (r : TelemetryData.t) (ws : nat)
  (th : float) (a : Anomaly.t) :
  crud.detect_anomaly_zscore db r ws th = (db', Return (Some a)) ->
  anomalies db' = anomalies db ++ [a]
  /\ telemetry_data db' = telemetry_data db
  /\ anomalies_of db' (TelemetryData.id r) = 1
  /\ Anomaly.telemetry_id a = TelemetryData.id r
  /\ Anomaly.device_id a = TelemetryData.device_id r
  /\ Anomaly.metric_name a = TelemetryData.metric_name r
  /\ Anomaly.metric_value a = sqlite_real (TelemetryData.metric_value r)
  /\ (reachable db -> In r (telemetry_data db) ->
      Anomaly.metric_value a = TelemetryData.metric_value r)
  /\ Anomaly.timestamp a = TelemetryData.timestamp r
  /\ Anomaly.threshold_used a = Some (sqlite_real th)
  /\ Anomaly.anomaly_type a
     = Some ("High Z-score ("
             ++ format_2f (crud.z_score_of (TelemetryData.metric_value r)
                             (crud.recent_data db r ws))
             ++ ")")%string
  /\ match Prim2SF (crud.z_score_of (TelemetryData.metric_value r)
                      (crud.recent_data db r ws)) with
     | S754_finite _ m e =>
         exists h : Z,
           nearest_hundredths m e h
           /\ Anomaly.anomaly_type a
              = Some ("High Z-score ("
                      ++ (str_of_Z (h / 100) ++ "." ++ two_digits (h mod 100))
                      ++ ")")%string
     | S754_infinity _ => Anomaly.anomaly_type a = Some "High Z-score (inf)"%string
     | S754_zero _ => Anomaly.anomaly_type a = Some "High Z-score (0.00)"%string
     | S754_nan => False
     end.
Proof.
  intros H. pose proof (detect_some_count _ _ _ _ _ _ H) as H1.
  apply detect_some_inv in H. cbv zeta in H.
  destruct H as (_ & _ & Hz & _ & -> & Hid & Hd & Hm & Hv & Ht & Hl & Hth & _ & _).
  split; [reflexivity|]. split; [reflexivity|]. split; [exact H1|].
  split; [exact Hid|]. split; [exact Hd|]. split; [exact Hm|].
  split; [exact Hv|].
  split.
  { intros Hr Hin. rewrite Hv.
    pose proof (reachable_stored_values db Hr) as Hk.
    rewrite Forall_forall in Hk. exact (Hk r Hin). }
  split; [exact Ht|]. split; [exact Hth|].
  split; [exact Hl|].
  unfold crud.anomaly_label, format_2f in Hl.
  pose proof (abs_sign ((TelemetryData.metric_value r - np.mean (crud.recent_data db r ws))
                        / np.std (crud.recent_data db r ws))%float) as Hs.
  change (PrimFloat.abs ((TelemetryData.metric_value r - np.mean (crud.recent_data db r ws))
                         / np.std (crud.recent_data db r ws)))%float
    with (crud.z_score_of (TelemetryData.metric_value r) (crud.recent_data db r ws)) in Hs.
  destruct (Prim2SF (crud.z_score_of (TelemetryData.metric_value r)
                       (crud.recent_data db r ws))) as [s|s| |s m e] eqn:E.
  - subst s. exact Hl.
  - subst s. exact Hl.
  - rewrite (ltb_nan_r _ _ E) in Hz. discriminate Hz.
  - subst s. exists (hundredths m e). split; [|exact Hl].
    unfold nearest_hundredths. destruct (Z.leb_spec 0 e) as [He|He].
    + apply hundredths_exact. exact He.
    + apply hundredths_nearest. exact He.
Qed.

(** Scenario B: window [10,11,9,10,10], new value 30, default threshold; the
    score 31.6227... is printed 31.62.  Scenario E: window [10,11,9,10,12],
    new value 13; the score lies between 2.549 and 2.55 and is printed
    2.55. *)
Lemma detect_records_anomaly_scenario_B :
  (exists a,
     crud.detect_anomaly_zscore scenario_B (newest scenario_B) 50 2.5
     = (scenario_B_flagged, Return (Some a))
     /\ anomalies scenario_B_flagged = [a]
     /\ Anomaly.telemetry_id a = 6%Z
     /\ Anomaly.metric_value a = 30%float
     /\ Anomaly.threshold_used a = Some 2.5%float
     /\ Anomaly.anomaly_type a = Some "High Z-score (31.62)"%string)
  /\ crud.recent_data scenario_E (newest scenario_E) 50 = [12; 10; 9; 11; 10]%float
  /\ (2.549 <? crud.z_score_of 13 [12; 10; 9; 11; 10])%float = true
  /\ (crud.z_score_of 13 [12; 10; 9; 11; 10] <? 2.55)%float = true
  /\ (exists a db',
        crud.detect_anomaly_zscore scenario_E (newest scenario_E) 50 2.5
        = (db', Return (Some a))
        /\ Anomaly.anomaly_type a = Some "High Z-score (2.55)"%string).
Proof.
  split; [|split; [reflexivity|split; [reflexivity|split; [reflexivity|]]]].
  - eexists.
    assert (E : crud.detect_anomaly_zscore scenario_B (newest scenario_B) 50 2.5
                = (scenario_B_flagged, Return (Some (newest_anomaly scenario_B_flagged))))
      by (vm_compute; reflexivity).
    split; [exact E|].
    destruct (detect_records_anomaly _ _ _ _ _ _ E)
      as (Han & _ & _ & Hid & _ & _ & Hv & _ & _ & Hth & Hl & _).
    split; [rewrite Han; reflexivity|].
    split; [rewrite Hid; reflexivity|].
    split; [rewrite Hv; reflexivity|].
    split; [exact Hth|].
    rewrite Hl. vm_compute. reflexivity.
  - eexists. eexists.
    assert (E : crud.detect_anomaly_zscore scenario_E (newest scenario_E) 50 2.5
                = (fst (crud.detect_anomaly_zscore scenario_E (newest scenario_E) 50 2.5),
                   Return (Some (newest_anomaly
                     (fst (crud.detect_anomaly_zscore scenario_E (newest scenario_E) 50 2.5))))))
      by (vm_compute; reflexivity).
    split; [exact E|].
    destruct (detect_records_anomaly _ _ _ _ _ _ E)
      as (_ & _ & _ & _ & _ & _ & _ & _ & _ & _ & Hl & _).
    rewrite Hl. vm_compute. reflexivity.
Defined.

(** C9. A no-verdict outcome, whichever its cause (too few values, zero
    deviation, score not above the threshold), is a plain [None]: nothing is
    raised and the session is the one the call started from.  The causes are
    those three and no other; the values of the window and, for the score,
    the value of the reading are numbers there ([None], the stored form of a
    NaN, makes the call raise a [TypeError]).  Whenever the call raises, be
    it that recording the anomaly failed, the session is unchanged as well.
    In every case the readings table is what it was, so a stored reading
    stays stored. *)
Theorem no_verdict_silent_reading_kept (db : Session) (r : TelemetryData.t) (ws : nat)
  (th : float) :
  (crud.detect_anomaly_zscore db r ws th = (db, Return None)
   <-> List.length (crud.recent_data db r ws) < 5
       \/ existsb is_nan (crud.recent_data db r ws) = false
          /\ ((np.std (crud.recent_data db r ws) =? 0)%float = true
              \/ is_nan (TelemetryData.metric_value r) = false
                 /\ (th <? crud.z_score_of (TelemetryData.metric_value r)
                             (crud.recent_data db r ws))%float = false))
  /\ (snd (crud.detect_anomaly_zscore db r ws th) = Return None ->
      fst (crud.detect_anomaly_zscore db r ws th) = db)
  /\ (forall e, snd (crud.detect_anomaly_zscore db r ws th) = Raise e ->
      fst (crud.detect_anomaly_zscore db r ws th) = db
      /\ (e = TypeError
          \/ e = IntegrityError /\ 0 < anomalies_of db (TelemetryData.id r)))
  /\ telemetry_data (fst (crud.detect_anomaly_zscore db r ws th)) = telemetry_data db
  /\ (forall d, In d (telemetry_data db) ->
      In d (telemetry_data (fst (crud.detect_anomaly_zscore db r ws th)))).
Proof.
  split; [split|split; [|split; [|split]]].
  - apply detect_none_inv.
  - intros [H|[Hw [H|[Hv H]]]].
    + apply detect_few. exact H.
    + apply detect_flat; assumption.
    + apply detect_not_above; assumption.
  - intros H. apply detect_none_unchanged in H. rewrite H. reflexivity.
  - intros e H. apply detect_raise_unchanged in H. destruct H as [-> He].
    split; [reflexivity|exact He].
  - apply detect_telemetry.
  - intros d Hd. rewrite detect_telemetry. exact Hd.
Qed.

(** Scenario D gives a silent no-verdict; in the flagged scenario B recording
    fails and the six readings are still there. *)
Lemma no_verdict_silent_reading_kept_scenarios :
  crud.detect_anomaly_zscore scenario_D (newest scenario_D) 50 2.5
  = (scenario_D, Return None)
  /\ snd (crud.detect_anomaly_zscore scenario_B_flagged (newest scenario_B) 50 2.5)
     = Raise IntegrityError
  /\ fst (crud.detect_anomaly_zscore scenario_B_flagged (newest scenario_B) 50 2.5)
     = scenario_B_flagged
  /\ In (newest scenario_B)
       (telemetry_data
          (fst (crud.detect_anomaly_zscore scenario_B_flagged (newest scenario_B) 50 2.5))).
Proof.
  destruct (no_verdict_silent_reading_kept scenario_D (newest scenario_D) 50 2.5)
    as ([_ HD] & _).
  destruct (no_verdict_silent_reading_kept scenario_B_flagged (newest scenario_B) 50 2.5)
    as (_ & _ & HR & _ & HI).
  split; [apply HD; right; split; [reflexivity|right; split; reflexivity]|].
  split; [reflexivity|].
  split; [apply (HR IntegrityError); reflexivity|].
  apply HI. vm_compute. do 5 right. left. reflexivity.
Defined.

(** C2 (amended). For a reading with no anomaly recorded yet whose value is
    a number, and a fetched window of at least 5 numbers, with the mean and
    the standard deviation as [np.mean] and [np.std] compute them in
    binary64: [detect_anomaly_zscore] returns an anomaly exactly when the
    computed deviation is not 0 and the computed score abs((value - mean)/std)
    is above the threshold, and [None] exactly when the deviation is 0 or the
    score is not above the threshold.  So, for a computed deviation that is
    strictly positive, it returns an anomaly exactly when the score is above
    the threshold, and a score equal to the threshold gives [None]. *)
Theorem detect_verdict_rule (db : Session) (r : TelemetryData.t) (ws : nat) (th : float) :
  5 <= List.length (crud.recent_data db r ws) ->
  existsb is_nan (crud.recent_data db r ws) = false ->
  is_nan (TelemetryData.metric_value r) = false ->
  anomalies_of db (TelemetryData.id r) = 0 ->
  ((exists a db', crud.detect_anomaly_zscore db r ws th = (db', Return (Some a)))
   <-> (np.std (crud.recent_data db r ws) =? 0)%float = false
       /\ (th <? PrimFloat.abs ((TelemetryData.metric_value r
                                 - np.mean (crud.recent_data db r ws))
                                / np.std (crud.recent_data db r ws)))%float = true)
  /\ (crud.detect_anomaly_zscore db r ws th = (db, Return None)
      <-> (np.std (crud.recent_data db r ws) =? 0)%float = true
          \/ (th <? PrimFloat.abs ((TelemetryData.metric_value r
                                    - np.mean (crud.recent_data db r ws))
                                   / np.std (crud.recent_data db r ws)))%float = false)
  /\ ((0 <? np.std (crud.recent_data db r ws))%float = true ->
      ((exists a db', crud.detect_anomaly_zscore db r ws th = (db', Return (Some a)))
       <-> (th <? PrimFloat.abs ((TelemetryData.metric_value r
                                  - np.mean (crud.recent_data db r ws))
                                 / np.std (crud.recent_data db r ws)))%float = true)
      /\ ((PrimFloat.abs ((TelemetryData.metric_value r
                           - np.mean (crud.recent_data db r ws))
                          / np.std (crud.recent_data db r ws)) =? th)%float = true ->
          crud.detect_anomaly_zscore db r ws th = (db, Return None))).
Proof.
  intros Hn Hw Hv H0.
  change (PrimFloat.abs ((TelemetryData.metric_value r - np.mean (crud.recent_data db r ws))
                         / np.std (crud.recent_data db r ws)))%float
    with (crud.z_score_of (TelemetryData.metric_value r) (crud.recent_data db r ws)).
  assert (Hsome : forall a db',
             crud.detect_anomaly_zscore db r ws th = (db', Return (Some a)) ->
             (np.std (crud.recent_data db r ws) =? 0)%float = false
             /\ (th <? crud.z_score_of (TelemetryData.metric_value r)
                         (crud.recent_data db r ws))%float = true).
  { intros a db' H. apply detect_some_inv in H. tauto. }
  assert (Habove : (np.std (crud.recent_data db r ws) =? 0)%float = false ->
             (th <? crud.z_score_of (TelemetryData.metric_value r)
                      (crud.recent_data db r ws))%float = true ->
             exists a db', crud.detect_anomaly_zscore db r ws th = (db', Return (Some a))).
  { intros Hs Hz. destruct (detect_above_fresh db r ws th Hn Hw Hs Hv Hz H0) as [a Ha].
    exists a. eexists. exact Ha. }
  split; [split|split; [split|]].
  - intros (a & db' & H). exact (Hsome a db' H).
  - intros [Hs Hz]. exact (Habove Hs Hz).
  - intros H. apply detect_none_inv in H.
    destruct H as [H|[_ [H|[_ H]]]]; [lia|left; exact H|right; exact H].
  - intros [H|H]; [apply detect_flat|apply detect_not_above]; assumption.
  - intros Hpos. apply ltb_zero_neq in Hpos. split; [split|].
    + intros (a & db' & H). exact (proj2 (Hsome a db' H)).
    + intros Hz. exact (Habove Hpos Hz).
    + intros H. apply detect_not_above; [assumption|assumption|].
      apply eqb_not_ltb. exact H.
Qed.

(** Scenario B (deviation 0.63, score 31.62, an anomaly), scenario D
    (deviation 1.41, score 2.12, none), and scenario D again with the score
    itself as the threshold (none). *)
Lemma detect_verdict_rule_scenarios :
  (0 <? np.std (crud.recent_data scenario_B (newest scenario_B) 50))%float = true
  /\ (exists a db',
        crud.detect_anomaly_zscore scenario_B (newest scenario_B) 50 2.5
        = (db', Return (Some a)))
  /\ (0 <? np.std (crud.recent_data scenario_D (newest scenario_D) 50))%float = true
  /\ crud.detect_anomaly_zscore scenario_D (newest scenario_D) 50 2.5
     = (scenario_D, Return None)
  /\ crud.detect_anomaly_zscore scenario_D (newest scenario_D) 50
       (crud.z_score_of 103 [99; 101; 98; 102; 100]%float)
     = (scenario_D, Return None).
Proof.
  assert (HB : 5 <= List.length (crud.recent_data scenario_B (newest scenario_B) 50))
    by (vm_compute; lia).
  assert (HD : 5 <= List.length (crud.recent_data scenario_D (newest scenario_D) 50))
    by (vm_compute; lia).
  destruct (detect_verdict_rule scenario_B (newest scenario_B) 50 2.5
              HB eq_refl eq_refl eq_refl) as (_ & _ & H1).
  destruct (detect_verdict_rule scenario_D (newest scenario_D) 50 2.5
              HD eq_refl eq_refl eq_refl) as (_ & [_ H2] & _).
  destruct (detect_verdict_rule scenario_D (newest scenario_D) 50
              (crud.z_score_of 103 [99; 101; 98; 102; 100]%float)
              HD eq_refl eq_refl eq_refl) as (_ & _ & H3).
  split; [reflexivity|].
  split; [apply (H1 eq_refl); reflexivity|].
  split; [reflexivity|].
  split; [apply H2; right; reflexivity|].
  apply (H3 eq_refl). reflexivity.
Defined.

(** C2 as stated fails where binary64 runs out of range.  In the window
    [1e-200,0,0,0,0] the population standard deviation is positive and the
    score of the new value 1 is above 2.5, in exact arithmetic.  The squared
    deviations are below the smallest binary64 number, [np.std] computes 0,
    and the outcome is [None]. *)
Lemma positive_deviation_computed_zero :
  crud.recent_data scenario_tiny (newest scenario_tiny) 50 = [1e-200; 0; 0; 0; 0]%float
  /\ TelemetryData.metric_value (newest scenario_tiny) = 1%float
  /\ (0 < population_variance (map exact [1e-200; 0; 0; 0; 0]%float))%Q
  /\ score_above (exact 1) (map exact [1e-200; 0; 0; 0; 0]%float) (exact 2.5)
  /\ np.std [1e-200; 0; 0; 0; 0]%float = 0%float
  /\ crud.detect_anomaly_zscore scenario_tiny (newest scenario_tiny) 50 2.5
     = (scenario_tiny, Return None)
  /\ ~ (exists a db',
          crud.detect_anomaly_zscore scenario_tiny (newest scenario_tiny) 50 2.5
          = (db', Return (Some a))).
Proof.
  assert (E : crud.detect_anomaly_zscore scenario_tiny (newest scenario_tiny) 50 2.5
              = (scenario_tiny, Return None)).
  { apply detect_flat; reflexivity. }
  split; [reflexivity|]. split; [reflexivity|].
  split; [vm_compute; reflexivity|]. split; [vm_compute; reflexivity|].
  split; [reflexivity|]. split; [exact E|].
  intros (a & db' & H). rewrite E in H. apply (f_equal snd) in H. discriminate H.
Qed.

(** C10. The score is a function of the reading and the window alone, and the
    verdict is monotone in the threshold: if an anomaly is returned at
    threshold [t], one is returned at every [t' <= t], with the same score in
    its label; if no-verdict is returned at [t'], it is returned at every
    [t >= t']. *)
Theorem verdict_monotone_in_threshold (db : Session) (r : TelemetryData.t) (ws : nat)
  (t t' : float) :
  (t' <=? t)%float = true ->
  (forall a db1,
      crud.detect_anomaly_zscore db r ws t = (db1, Return (Some a)) ->
      exists a' db2,
        crud.detect_anomaly_zscore db r ws t' = (db2, Return (Some a'))
        /\ Anomaly.anomaly_type a' = Anomaly.anomaly_type a)
  /\ (crud.detect_anomaly_zscore db r ws t' = (db, Return None) ->
      crud.detect_anomaly_zscore db r ws t = (db, Return None)).
Proof.
  intros Hle. split.
  - intros a db1 H. apply detect_some_inv in H. cbv zeta in H.
    destruct H as (Hn & Hs & Hz & H0 & _ & _ & _ & _ & _ & _ & Hl & _ & Hw & Hv).
    pose proof (leb_ltb_trans _ _ _ Hle Hz) as Hz'.
    destruct (detect_above_fresh db r ws t' Hn Hw Hs Hv Hz' H0) as [a' Ha'].
    exists a'. eexists. split; [exact Ha'|].
    apply detect_some_inv in Ha'. cbv zeta in Ha'.
    destruct Ha' as (_ & _ & _ & _ & _ & _ & _ & _ & _ & _ & Hl' & _).
    congruence.
  - intros H. apply detect_none_inv in H. destruct H as [H|[Hw [H|[Hv H]]]].
    + apply detect_few. exact H.
    + apply detect_flat; assumption.
    + apply detect_not_above; [assumption|assumption|].
      destruct (t <? crud.z_score_of _ _)%float eqn:Hz; [|reflexivity].
      rewrite (leb_ltb_trans _ _ _ Hle Hz) in H. discriminate.
Qed.

(** Scenario B is an anomaly at 2.5, hence at 1.5; scenario D is no-verdict at
    2.5 (score 2.12), hence at 3.0. *)
Lemma verdict_monotone_in_threshold_scenarios :
  (exists a' db2,
     crud.detect_anomaly_zscore scenario_B (newest scenario_B) 50 1.5 = (db2, Return (Some a'))
     /\ Anomaly.anomaly_type a' = Some "High Z-score (31.62)"%string)
  /\ crud.detect_anomaly_zscore scenario_D (newest scenario_D) 50 3 = (scenario_D, Return None).
Proof.
  destruct (verdict_monotone_in_threshold scenario_B (newest scenario_B) 50 2.5 1.5 eq_refl)
    as [H1 _].
  destruct (verdict_monotone_in_threshold scenario_D (newest scenario_D) 50 3 2.5 eq_refl)
    as [_ H2].
  split; [|apply H2; reflexivity].
  apply (H1 (newest_anomaly scenario_B_flagged)
            scenario_B_flagged).
  vm_compute. reflexivity.
Defined.

(** ** Uniqueness of [telemetry_id] in [anomalies] *)

Lemma anomalies_of_zero_notin (db : Session) (tid : Z) :
  anomalies_of db tid = 0 <-> ~ In tid (map Anomaly.telemetry_id (anomalies db)).
Proof.
  unfold anomalies_of. rewrite <- existsb_filter_nil. split.
  - intros E Hin. apply in_map_iff in Hin. destruct Hin as (a & Ha & Hin).
    assert (existsb (points_at tid) (anomalies db) = true); [|congruence].
    apply existsb_exists. exists a. split; [exact Hin|].
    unfold points_at. rewrite Ha. apply Z.eqb_refl.
  - intros Hn. destruct (existsb _ _) eqn:E; [|reflexivity].
    apply existsb_exists in E. destruct E as (a & Hin & Ha).
    exfalso. apply Hn. apply in_map_iff. exists a. split; [|exact Hin].
    unfold points_at in Ha. now apply Z.eqb_eq in Ha.
Qed.

Lemma NoDup_count_le_1 (l : list Anomaly.t) (tid : Z) :
  NoDup (map Anomaly.telemetry_id l) ->
  List.length (filter (points_at tid) l) <= 1.
Proof.
  induction l as [|a l IH]; cbn; [lia|].
  intros Hnd. inversion Hnd as [|x xs Hnotin Hnd']; subst.
  specialize (IH Hnd'). unfold points_at at 1.
  destruct (Z.eqb_spec (Anomaly.telemetry_id a) tid) as [E|E]; [|exact IH].
  cbn. subst tid.
  assert (H0 : anomalies_of (mkSession [] l) (Anomaly.telemetry_id a) = 0)
    by (apply anomalies_of_zero_notin; exact Hnotin).
  unfold anomalies_of in H0. cbn in H0. lia.
Qed.

Lemma create_anomaly_NoDup (db : Session) (d : crud.AnomalyData.t) :
  NoDup (map Anomaly.telemetry_id (anomalies db)) ->
  NoDup (map Anomaly.telemetry_id (anomalies (fst (crud.create_anomaly db d)))).
Proof.
  intros Hnd.
  destruct (create_anomaly_cases db d) as [[_ ->]|[H0 (a & -> & Hid & _)]]; [exact Hnd|].
  cbn. rewrite map_app. cbn.
  apply NoDup_rev in Hnd. rewrite <- (rev_involutive (_ ++ _)).
  apply NoDup_rev. rewrite rev_app_distr. cbn. constructor; [|exact Hnd].
  rewrite <- in_rev, Hid. apply anomalies_of_zero_notin. exact H0.
Qed.

Lemma detect_NoDup (db : Session) (r : TelemetryData.t) (ws : nat) (th : float) :
  NoDup (map Anomaly.telemetry_id (anomalies db)) ->
  NoDup (map Anomaly.telemetry_id
           (anomalies (fst (crud.detect_anomaly_zscore db r ws th)))).
Proof.
  intros Hnd.
  destruct (detect_branches db r ws th) as [ | | | | |out _ _ _ _ _ ->]; try exact Hnd.
  pose proof (create_anomaly_NoDup db
    (anomaly_data_of r
       (crud.z_score_of (TelemetryData.metric_value r) (crud.recent_data db r ws)) th) Hnd)
    as H.
  destruct (crud.create_anomaly _ _) as [db' [a|e]]; exact H.
Qed.

Lemma ingest_anomalies (utcnow : Z) (db : Session) (body : TelemetryDataCreate.body) :
  anomalies (fst (main.create_telemetry_data utcnow db body)) = anomalies db.
Proof.
  unfold main.create_telemetry_data.
  destruct (TelemetryDataCreate.validate utcnow body) as [t|e]; [|reflexivity].
  unfold crud.create_telemetry_data. destruct (is_nan _); reflexivity.
Qed.

Lemma step_NoDup (db db' : Session) :
  step db db' ->
  NoDup (map Anomaly.telemetry_id (anomalies db)) ->
  NoDup (map Anomaly.telemetry_id (anomalies db')).
Proof.
  intros [ | | | ] Hnd.
  - rewrite ingest_anomalies. exact Hnd.
  - exact Hnd.
  - apply create_anomaly_NoDup. exact Hnd.
  - apply detect_NoDup. exact Hnd.
Qed.

Lemma reachable_NoDup (db : Session) :
  reachable db -> NoDup (map Anomaly.telemetry_id (anomalies db)).
Proof.
  induction 1 as [|db db' _ IH Hstep]; [constructor|].
  exact (step_NoDup db db' Hstep IH).
Qed.

Lemma recent_data_ext (db db' : Session) (r : TelemetryData.t) (ws : nat) :
  telemetry_data db' = telemetry_data db ->
  crud.recent_data db' r ws = crud.recent_data db r ws.
Proof.
  intros E. unfold crud.recent_data, crud.recent_rows. rewrite E. reflexivity.
Qed.

Lemma detect_flagged_keeps (db : Session) (r : TelemetryData.t) (ws : nat) (th : float) :
  0 < anomalies_of db (TelemetryData.id r) ->
  fst (crud.detect_anomaly_zscore db r ws th) = db.
Proof.
  intros Hf.
  pose proof (detect_none_unchanged db r ws th) as HN.
  pose proof (detect_raise_unchanged db r ws th) as HR.
  destruct (crud.detect_anomaly_zscore db r ws th) as [db1 [[a|]|e]] eqn:E;
    cbn [fst snd] in *.
  - apply detect_some_inv in E. cbv zeta in E. lia.
  - specialize (HN eq_refl). congruence.
  - destruct (HR e eq_refl) as [HR' _]. congruence.
Qed.

Lemma post_all_reachable (vs : list float) (ts : Z) (db : Session) :
  reachable db -> reachable (post_all ts vs db).
Proof.
  revert ts db. induction vs as [|v vs IH]; intros ts db Hr; cbn [post_all]; [exact Hr|].
  apply IH. eapply reachable_step; [exact Hr|]. apply step_ingest.
Qed.

(** C5. In every store state the operations can reach, no two rows of
    [anomalies] share a [telemetry_id], so a reading has at most one anomaly;
    and when [detect_anomaly_zscore] has returned an anomaly for a reading, a
    second call on that reading with the same window is refused by the
    unique index, and whatever the second call's parameters the reading still
    has exactly one anomaly. *)
Theorem one_anomaly_per_reading (db : Session) :
  reachable db ->
  NoDup (map Anomaly.telemetry_id (anomalies db))
  /\ (forall tid, anomalies_of db tid <= 1)
  /\ (forall r ws th db' a,
        crud.detect_anomaly_zscore db r ws th = (db', Return (Some a)) ->
        crud.recent_data db' r ws = crud.recent_data db r ws
        /\ crud.detect_anomaly_zscore db' r ws th = (db', Raise IntegrityError)
        /\ forall ws' th',
             anomalies_of (fst (crud.detect_anomaly_zscore db' r ws' th'))
               (TelemetryData.id r) = 1).
Proof.
  intros Hr. pose proof (reachable_NoDup db Hr) as Hnd.
  split; [exact Hnd|]. split.
  - intros tid. apply NoDup_count_le_1. exact Hnd.
  - intros r ws th db' a H.
    pose proof (detect_some_count db db' r ws th a H) as H1.
    apply detect_some_inv in H. cbv zeta in H.
    destruct H as (Hn & Hs & Hz & _ & Hdb & _ & _ & _ & _ & _ & _ & _ & Hnw & Hv).
    assert (Hw : crud.recent_data db' r ws = crud.recent_data db r ws)
      by (apply recent_data_ext; rewrite Hdb; reflexivity).
    split; [exact Hw|]. split.
    + apply detect_above_flagged; rewrite ?Hw; try assumption. lia.
    + intros ws' th'. rewrite detect_flagged_keeps; [exact H1|lia].
Qed.

(** Scenario B, reached by six posts: one detection, then a second one. *)
Lemma one_anomaly_per_reading_scenario_B :
  reachable scenario_B
  /\ anomalies_of scenario_B_flagged 6 = 1
  /\ crud.detect_anomaly_zscore scenario_B_flagged (newest scenario_B) 50 2.5
     = (scenario_B_flagged, Raise IntegrityError).
Proof.
  assert (Hr : reachable scenario_B) by (apply post_all_reachable; constructor).
  split; [exact Hr|]. split; [reflexivity|].
  destruct (one_anomaly_per_reading scenario_B Hr) as (_ & _ & H).
  apply (H (newest scenario_B) 50 2.5%float scenario_B_flagged
           (newest_anomaly scenario_B_flagged)).
  vm_compute. reflexivity.
Defined.

(** ** The window query *)

Lemma same_series_spec (r d : TelemetryData.t) :
  crud.same_series r d = true
  <-> TelemetryData.device_id d = TelemetryData.device_id r
      /\ TelemetryData.metric_name d = TelemetryData.metric_name r
      /\ TelemetryData.id d <> TelemetryData.id r.
Proof.
  unfold crud.same_series.
  rewrite !andb_true_iff, negb_true_iff, !String.eqb_eq, Z.eqb_neq. tauto.
Qed.

Lemma insert_desc_perm (d : TelemetryData.t) (l : list TelemetryData.t) :
  Permutation (crud.insert_desc d l) (d :: l).
Proof.
  induction l as [|x l IH]; cbn; [reflexivity|].
  destruct (TelemetryData.timestamp x <=? TelemetryData.timestamp d)%Z; [reflexivity|].
  rewrite IH. apply perm_swap.
Qed.

Lemma order_by_perm (l : list TelemetryData.t) :
  Permutation (crud.order_by_timestamp_desc l) l.
Proof.
  induction l as [|x l IH]; cbn; [reflexivity|].
  rewrite insert_desc_perm. now constructor.
Qed.

Lemma insert_desc_sorted (d : TelemetryData.t) (l : list TelemetryData.t) :
  StronglySorted not_older l -> StronglySorted not_older (crud.insert_desc d l).
Proof.
  induction 1 as [|x l Hs IH Hx]; cbn; [repeat constructor|].
  destruct (Z.leb_spec (TelemetryData.timestamp x) (TelemetryData.timestamp d)) as [Hle|Hgt].
  - constructor; [now constructor|].
    constructor; [exact Hle|].
    eapply Forall_impl; [|exact Hx]. unfold not_older. intros y Hy. lia.
  - constructor; [exact IH|].
    apply Forall_forall. intros y Hy.
    apply (Permutation_in _ (insert_desc_perm d l)) in Hy.
    destruct Hy as [<-|Hy]; [unfold not_older; lia|].
    rewrite Forall_forall in Hx. apply Hx, Hy.
Qed.

Lemma order_by_sorted (l : list TelemetryData.t) :
  StronglySorted not_older (crud.order_by_timestamp_desc l).
Proof.
  induction l as [|x l IH]; cbn; [constructor|]. apply insert_desc_sorted, IH.
Qed.

Lemma StronglySorted_app_inv {A : Type} (R : A -> A -> Prop) (l1 l2 : list A) :
  StronglySorted R (l1 ++ l2) ->
  StronglySorted R l1 /\ Forall (fun x => Forall (R x) l2) l1.
Proof.
  induction l1 as [|x l1 IH]; cbn; intros H; [split; constructor|].
  inversion H as [|y ys Hs Hx]; subst. destruct (IH Hs) as [H1 H2].
  apply Forall_app in Hx. destruct Hx as [Hx1 Hx2].
  split; constructor; assumption.
Qed.

(** C6. The fetched window is the [metric_value] column of rows that are all
    stored readings of the evaluated reading's device and metric with another
    id; the rows come most recent first; there are at most [window_size] of
    them, namely [window_size] or all the matching readings, whichever is
    fewer; the matching readings left out are not newer than any row of the
    window; and when no more than [window_size] readings match, the window
    holds exactly those (none, when none matches). *)
Theorem window_contents (db : Session) (r : TelemetryData.t) (ws : nat) :
  crud.recent_data db r ws
  = map TelemetryData.metric_value (crud.recent_rows db r ws)
  /\ Forall (fun d =>
               In d (telemetry_data db)
               /\ TelemetryData.device_id d = TelemetryData.device_id r
               /\ TelemetryData.metric_name d = TelemetryData.metric_name r
               /\ TelemetryData.id d <> TelemetryData.id r)
       (crud.recent_rows db r ws)
  /\ StronglySorted not_older (crud.recent_rows db r ws)
  /\ List.length (crud.recent_data db r ws) <= ws
  /\ List.length (crud.recent_data db r ws)
     = Nat.min ws (List.length (filter (crud.same_series r) (telemetry_data db)))
  /\ (exists rest,
        Permutation (crud.recent_rows db r ws ++ rest)
          (filter (crud.same_series r) (telemetry_data db))
        /\ Forall (fun d => Forall (not_older d) rest) (crud.recent_rows db r ws))
  /\ (List.length (filter (crud.same_series r) (telemetry_data db)) <= ws ->
      Permutation (crud.recent_rows db r ws)
        (filter (crud.same_series r) (telemetry_data db)))
  /\ (forall d, In d (filter (crud.same_series r) (telemetry_data db))
                <-> In d (telemetry_data db)
                    /\ TelemetryData.device_id d = TelemetryData.device_id r
                    /\ TelemetryData.metric_name d = TelemetryData.metric_name r
                    /\ TelemetryData.id d <> TelemetryData.id r).
Proof.
  unfold crud.recent_data, crud.recent_rows, crud.limit.
  set (m := filter (crud.same_series r) (telemetry_data db)).
  set (s := crud.order_by_timestamp_desc m).
  assert (Hperm : Permutation s m) by apply order_by_perm.
  assert (Hsorted : StronglySorted not_older s) by apply order_by_sorted.
  assert (Hm : forall d, In d m
                <-> In d (telemetry_data db)
                    /\ TelemetryData.device_id d = TelemetryData.device_id r
                    /\ TelemetryData.metric_name d = TelemetryData.metric_name r
                    /\ TelemetryData.id d <> TelemetryData.id r).
  { intros d. unfold m. rewrite filter_In, same_series_spec. tauto. }
  rewrite <- (firstn_skipn ws s) in Hsorted.
  apply StronglySorted_app_inv in Hsorted. destruct Hsorted as [Hs1 Hs2].
  rewrite length_map, length_firstn, (Permutation_length Hperm).
  split; [reflexivity|]. split.
  { apply Forall_forall. intros d Hd. apply Hm.
    apply (Permutation_in _ Hperm). rewrite <- (firstn_skipn ws s).
    apply in_or_app. left. exact Hd. }
  split; [exact Hs1|]. split; [apply Nat.le_min_l|]. split; [reflexivity|]. split.
  { exists (skipn ws s). split; [rewrite firstn_skipn; exact Hperm | exact Hs2]. }
  split; [|exact Hm].
  intros Hle. rewrite firstn_all2; [exact Hperm|].
  rewrite (Permutation_length Hperm). exact Hle.
Qed.

(** Readings of two devices and two metrics, posted out of order: the window
    of the last one, limited to two rows and unlimited. *)
Lemma window_contents_scenario_mixed :
  crud.recent_data scenario_mixed (newest scenario_mixed) 2 = [21; 23]%float
  /\ crud.recent_data scenario_mixed (newest scenario_mixed) 50 = [21; 23; 22]%float
  /\ List.length (crud.recent_data scenario_mixed (newest scenario_mixed) 2) <= 2
  /\ Permutation (crud.recent_rows scenario_mixed (newest scenario_mixed) 50)
       (filter (crud.same_series (newest scenario_mixed)) (telemetry_data scenario_mixed)).
Proof.
  destruct (window_contents scenario_mixed (newest scenario_mixed) 2)
    as (_ & _ & _ & Hlen & _).
  destruct (window_contents scenario_mixed (newest scenario_mixed) 50)
    as (_ & _ & _ & _ & _ & _ & Hall & _).
  split; [reflexivity|]. split; [reflexivity|]. split; [exact Hlen|].
  apply Hall. vm_compute. lia.
Defined.

(** ** Validation and ingestion *)

Lemma min_length_1_empty (s : string) :
  TelemetryDataCreate.min_length 1 s = false <-> s = EmptyString.
Proof.
  unfold TelemetryDataCreate.min_length. destruct s; cbn; split; congruence.
Qed.

(** What [validate] accepts, and what it makes of it. *)
Lemma validate_Return (utcnow : Z) (body : TelemetryDataCreate.body)
  (d m : string) (v : float) :
  TelemetryDataCreate.b_device_id body = TelemetryDataCreate.Value d ->
  TelemetryDataCreate.b_metric_name body = TelemetryDataCreate.Value m ->
  TelemetryDataCreate.b_metric_value body = TelemetryDataCreate.Value v ->
  d <> EmptyString -> m <> EmptyString ->
  TelemetryDataCreate.b_timestamp body <> TelemetryDataCreate.Invalid ->
  TelemetryDataCreate.b_unit body <> TelemetryDataCreate.Invalid ->
  TelemetryDataCreate.validate utcnow body
  = Return (TelemetryDataCreate.mk
              (match TelemetryDataCreate.b_timestamp body with
               | TelemetryDataCreate.Value ts => ts
               | _ => utcnow
               end)
              d m v
              (match TelemetryDataCreate.b_unit body with
               | TelemetryDataCreate.Value u => u
               | _ => None
               end)).
Proof.
  intros Hd Hm Hv Hdn Hmn Hts Hu.
  assert (Ed : TelemetryDataCreate.min_length 1 d = true).
  { destruct (TelemetryDataCreate.min_length 1 d) eqn:E; [reflexivity|].
    apply min_length_1_empty in E. contradiction. }
  assert (Em : TelemetryDataCreate.min_length 1 m = true).
  { destruct (TelemetryDataCreate.min_length 1 m) eqn:E; [reflexivity|].
    apply min_length_1_empty in E. contradiction. }
  unfold TelemetryDataCreate.validate, TelemetryDataCreate.bind,
    TelemetryDataCreate.optional, TelemetryDataCreate.required.
  rewrite Hd, Hm, Hv, Ed, Em.
  destruct (TelemetryDataCreate.b_timestamp body) as [|ts|]; [| |congruence];
    (destruct (TelemetryDataCreate.b_unit body) as [|u|]; [| |congruence]);
    reflexivity.
Qed.

Lemma validate_Return_inv (utcnow : Z) (body : TelemetryDataCreate.body)
  (t : TelemetryDataCreate.t) :
  TelemetryDataCreate.validate utcnow body = Return t ->
  TelemetryDataCreate.b_device_id body
  = TelemetryDataCreate.Value (TelemetryDataCreate.device_id t)
  /\ TelemetryDataCreate.b_metric_name body
     = TelemetryDataCreate.Value (TelemetryDataCreate.metric_name t)
  /\ TelemetryDataCreate.b_metric_value body
     = TelemetryDataCreate.Value (TelemetryDataCreate.metric_value t)
  /\ TelemetryDataCreate.device_id t <> EmptyString
  /\ TelemetryDataCreate.metric_name t <> EmptyString
  /\ TelemetryDataCreate.b_timestamp body <> TelemetryDataCreate.Invalid
  /\ TelemetryDataCreate.b_unit body <> TelemetryDataCreate.Invalid
  /\ TelemetryDataCreate.timestamp t
     = match TelemetryDataCreate.b_timestamp body with
       | TelemetryDataCreate.Value ts => ts
       | _ => utcnow
       end
  /\ TelemetryDataCreate.unit t
     = match TelemetryDataCreate.b_unit body with
       | TelemetryDataCreate.Value u => u
       | _ => None
       end.
Proof.
  unfold TelemetryDataCreate.validate, TelemetryDataCreate.bind,
    TelemetryDataCreate.optional, TelemetryDataCreate.required.
  destruct (TelemetryDataCreate.b_timestamp body) as [|ts|];
    try (intros H; discriminate H);
    (destruct (TelemetryDataCreate.b_device_id body) as [|d|];
       try (intros H; discriminate H));
    (destruct (TelemetryDataCreate.b_metric_name body) as [|m|];
       try (intros H; discriminate H));
    (destruct (TelemetryDataCreate.b_metric_value body) as [|v|];
       try (intros H; discriminate H));
    (destruct (TelemetryDataCreate.b_unit body) as [|u|];
       try (intros H; discriminate H));
    (destruct (TelemetryDataCreate.min_length 1 d) eqn:Ed;
       try (intros H; discriminate H));
    (destruct (TelemetryDataCreate.min_length 1 m) eqn:Em;
       try (intros H; discriminate H));
    intros H; injection H as <-; cbn;
    (assert (Hd : d <> EmptyString)
       by (intros E; apply min_length_1_empty in E; congruence));
    (assert (Hm : m <> EmptyString)
       by (intros E; apply min_length_1_empty in E; congruence));
    repeat (split; [first [reflexivity|assumption|discriminate]|]);
    first [reflexivity|assumption|discriminate].
Qed.

(** The endpoint on a body that [validate] accepts. *)
Lemma ingest_Return (utcnow : Z) (db : Session) (body : TelemetryDataCreate.body)
  (t : TelemetryDataCreate.t) :
  TelemetryDataCreate.validate utcnow body = Return t ->
  main.create_telemetry_data utcnow db body
  = (fst (crud.create_telemetry_data db t),
     if is_nan (TelemetryDataCreate.metric_value t) then main.HTTP_500
     else main.HTTP_200 (snd (crud.create_telemetry_data db t))).
Proof.
  intros E. unfold main.create_telemetry_data. rewrite E.
  unfold crud.create_telemetry_data. cbv beta iota zeta.
  cbn [TelemetryData.metric_value fst snd]. rewrite is_nan_sqlite_real.
  destruct (is_nan _); reflexivity.
Qed.

(** C7 (amended). A reading whose [device_id] or [metric_name] is the empty
    string is rejected by validation before storage: the endpoint answers
    with the validation error and the session is unchanged, so no row is
    created.  The value is not examined: a body with non-empty [device_id] and
    [metric_name] and any float as [metric_value], finite or not, passes
    validation and a row is stored for it, holding the value as the column
    keeps it.  The answer is the row, except for a NaN: it is stored as NULL,
    the row read back does not fit the response model, and the answer is
    500. *)
Theorem validation_rejects_empty_names (utcnow : Z) (db : Session)
  (body : TelemetryDataCreate.body) :
  (TelemetryDataCreate.b_device_id body = TelemetryDataCreate.Value EmptyString
   \/ TelemetryDataCreate.b_metric_name body = TelemetryDataCreate.Value EmptyString ->
   TelemetryDataCreate.validate utcnow body = Raise ValidationError
   /\ main.create_telemetry_data utcnow db body = (db, main.HTTP_422))
  /\ (forall d m v,
        TelemetryDataCreate.b_device_id body = TelemetryDataCreate.Value d ->
        TelemetryDataCreate.b_metric_name body = TelemetryDataCreate.Value m ->
        TelemetryDataCreate.b_metric_value body = TelemetryDataCreate.Value v ->
        d <> EmptyString -> m <> EmptyString ->
        TelemetryDataCreate.b_timestamp body <> TelemetryDataCreate.Invalid ->
        TelemetryDataCreate.b_unit body <> TelemetryDataCreate.Invalid ->
        exists row,
          main.create_telemetry_data utcnow db body
          = (mkSession (telemetry_data db ++ [row]) (anomalies db),
             if is_nan v then main.HTTP_500 else main.HTTP_200 row)
          /\ TelemetryData.metric_value row = sqlite_real v
          /\ TelemetryData.device_id row = d
          /\ TelemetryData.metric_name row = m).
Proof.
  split.
  - intros H.
    assert (E : TelemetryDataCreate.validate utcnow body = Raise ValidationError).
    { destruct (TelemetryDataCreate.validate utcnow body) as [t|e] eqn:E.
      - apply validate_Return_inv in E.
        destruct E as (Hd & Hm & _ & Hdn & Hmn & _).
        destruct H as [H|H]; [rewrite H in Hd|rewrite H in Hm]; congruence.
      - revert E. unfold TelemetryDataCreate.validate, TelemetryDataCreate.bind,
          TelemetryDataCreate.optional, TelemetryDataCreate.required.
        repeat match goal with
        | |- context [match ?k with TelemetryDataCreate.Absent => _ | _ => _ end] =>
            destruct k
        | |- context [if ?c then _ else _] => destruct c
        end; congruence. }
    split; [exact E|]. unfold main.create_telemetry_data. rewrite E. reflexivity.
  - intros d m v Hd Hm Hv Hdn Hmn Hts Hu.
    rewrite (ingest_Return utcnow db body _
               (validate_Return utcnow body d m v Hd Hm Hv Hdn Hmn Hts Hu)).
    eexists. split; [reflexivity|]. split; [reflexivity|]. split; reflexivity.
Qed.

(** An empty device id is refused; an infinite value is stored and
    returned; a NaN is stored and the answer is 500. *)
Lemma validation_rejects_empty_names_examples :
  main.create_telemetry_data 0 scenario_A
    (body_of 7 EmptyString "temperature" 25.5 None)
  = (scenario_A, main.HTTP_422)
  /\ (exists row,
        main.create_telemetry_data 0 empty_db (reading_body 1 infinity)
        = (mkSession [row] [], main.HTTP_200 row)
        /\ TelemetryData.metric_value row = infinity)
  /\ (exists row,
        main.create_telemetry_data 0 empty_db (reading_body 1 nan)
        = (mkSession [row] [], main.HTTP_500)
        /\ is_nan (TelemetryData.metric_value row) = true).
Proof.
  split; [|split].
  - apply (validation_rejects_empty_names 0 scenario_A
             (body_of 7 EmptyString "temperature" 25.5 None)).
    left. reflexivity.
  - destruct (validation_rejects_empty_names 0 empty_db (reading_body 1 infinity))
      as [_ H].
    destruct (H "sensor-alpha-001"%string "temperature"%string infinity
                eq_refl eq_refl eq_refl) as (row & E & Hv & _); try discriminate.
    exists row. split; [exact E | exact Hv].
  - destruct (validation_rejects_empty_names 0 empty_db (reading_body 1 nan))
      as [_ H].
    destruct (H "sensor-alpha-001"%string "temperature"%string nan
                eq_refl eq_refl eq_refl) as (row & E & Hv & _); try discriminate.
    exists row. split; [exact E | rewrite Hv; reflexivity].
Defined.

(** C7 as stated fails for the values that are not finite.  A reading whose
    value is infinite passes validation, is stored and is returned.  A
    reading whose value is a NaN passes validation as well and a row is
    created for it, holding NULL (the NaN of the model's row); the failure
    that follows is the 500 of the response model, not a validation error of
    the request. *)
Lemma non_finite_value_stored :
  is_finite infinity = false
  /\ is_finite nan = false
  /\ TelemetryDataCreate.validate 0 (reading_body 1 infinity)
     = Return (TelemetryDataCreate.mk 1 "sensor-alpha-001" "temperature" infinity
                 (Some "Celsius"%string))
  /\ main.create_telemetry_data 0 empty_db (reading_body 1 infinity)
     = (mkSession [TelemetryData.mk 1 1 "sensor-alpha-001" "temperature" infinity
                     (Some "Celsius"%string)] [],
        main.HTTP_200 (TelemetryData.mk 1 1 "sensor-alpha-001" "temperature" infinity
                         (Some "Celsius"%string)))
  /\ TelemetryDataCreate.validate 0 (reading_body 1 nan)
     = Return (TelemetryDataCreate.mk 1 "sensor-alpha-001" "temperature" nan
                 (Some "Celsius"%string))
  /\ main.create_telemetry_data 0 empty_db (reading_body 1 nan)
     = (mkSession [TelemetryData.mk 1 1 "sensor-alpha-001" "temperature" nan
                     (Some "Celsius"%string)] [],
        main.HTTP_500).
Proof. repeat split; reflexivity. Qed.

(** C1: what the code does.  The ingestion endpoint never touches the
    anomalies table, in any state; posting 30 after 10, 11, 9, 10, 10 stores the
    reading and leaves the table empty, although [detect_anomaly_zscore] on
    the stored reading records an anomaly with score 31.62. *)
Theorem ingestion_records_no_anomaly :
  (forall utcnow db body,
     anomalies (fst (main.create_telemetry_data utcnow db body)) = anomalies db)
  /\ main.create_telemetry_data 6 (db_of [10; 11; 9; 10; 10]%float) (reading_body 6 30)
     = (scenario_B, main.HTTP_200 (newest scenario_B))
  /\ anomalies scenario_B = []
  /\ exists a,
       crud.detect_anomaly_zscore scenario_B (newest scenario_B)
         crud.default_window_size crud.default_z_score_threshold
       = (mkSession (telemetry_data scenario_B) [a], Return (Some a))
       /\ Anomaly.anomaly_type a = Some "High Z-score (31.62)"%string.
Proof.
  split; [exact ingest_anomalies|]. split; [reflexivity|]. split; [reflexivity|].
  eexists. split; vm_compute; reflexivity.
Qed.

(** * Further properties of the stores and the read queries *)

(** ** Primary keys and the append-only tables *)

Lemma next_id_above (ids : list Z) : Forall (fun i => (i < next_id ids)%Z) ids.
Proof.
  unfold next_id. induction ids as [|i ids IH]; cbn [fold_right]; [constructor|].
  constructor; [lia|].
  eapply Forall_impl; [|exact IH]. cbv beta. intros j Hj. lia.
Qed.

Lemma next_id_fresh (ids : list Z) : ~ In (next_id ids) ids.
Proof.
  intros Hin. pose proof (next_id_above ids) as H.
  rewrite Forall_forall in H. specialize (H _ Hin). lia.
Qed.

Lemma NoDup_snoc {A : Type} (l : list A) (x : A) :
  NoDup l -> ~ In x l -> NoDup (l ++ [x]).
Proof.
  intros Hnd Hx. apply NoDup_rev in Hnd. rewrite <- (rev_involutive (l ++ [x])).
  apply NoDup_rev. rewrite rev_app_distr. cbn. constructor; [|exact Hnd].
  rewrite <- in_rev. exact Hx.
Qed.

Lemma create_anomaly_tables (db : Session) (d : crud.AnomalyData.t) :
  telemetry_data (fst (crud.create_anomaly db d)) = telemetry_data db
  /\ (anomalies (fst (crud.create_anomaly db d)) = anomalies db
      \/ exists a,
           anomalies (fst (crud.create_anomaly db d)) = anomalies db ++ [a]
           /\ Anomaly.id a = next_id (map Anomaly.id (anomalies db))).
Proof.
  unfold crud.create_anomaly.
  destruct (existsb _ (anomalies db)).
  - split; [|left]; reflexivity.
  - split; [reflexivity|]. right. eexists. split; reflexivity.
Qed.

(** What one operation does to the two tables: each is left as it is or gets
    one row at its end, whose key is the table's next one. *)
Lemma step_tables (db db' : Session) :
  step db db' ->
  (telemetry_data db' = telemetry_data db
   \/ exists row,
        telemetry_data db' = telemetry_data db ++ [row]
        /\ TelemetryData.id row = next_id (map TelemetryData.id (telemetry_data db)))
  /\ (anomalies db' = anomalies db
      \/ exists a,
           anomalies db' = anomalies db ++ [a]
           /\ Anomaly.id a = next_id (map Anomaly.id (anomalies db))).
Proof.
  intros [utcnow db0 body|db0 telemetry|db0 d|db0 r ws th].
  - destruct (TelemetryDataCreate.validate utcnow body) as [t|e] eqn:E.
    + rewrite (ingest_Return utcnow db0 body t E). cbn [fst].
      split; [right; eexists; split; reflexivity | left; reflexivity].
    + unfold main.create_telemetry_data. rewrite E. split; left; reflexivity.
  - split; [right; eexists; split; reflexivity | left; reflexivity].
  - destruct (create_anomaly_tables db0 d) as [H1 H2]. split; [left; exact H1 | exact H2].
  - destruct (detect_branches db0 r ws th) as [ | | | | |out _ _ _ _ _ ->];
      try (split; left; reflexivity).
    destruct (create_anomaly_tables db0 (anomaly_data_of r
                (crud.z_score_of (TelemetryData.metric_value r) (crud.recent_data db0 r ws))
                th)) as [H1 H2].
    destruct (crud.create_anomaly _ _) as [db1 [a|e]]; cbn [fst] in *;
      (split; [left; exact H1 | exact H2]).
Qed.

Lemma StronglySorted_snoc {A : Type} (R : A -> A -> Prop) (l : list A) (x : A) :
  StronglySorted R l -> Forall (fun y => R y x) l -> StronglySorted R (l ++ [x]).
Proof.
  induction 1 as [|y l Hs IH Hy]; cbn; intros Hx; [repeat constructor|].
  inversion Hx; subst. constructor; [auto|].
  apply Forall_app. split; [exact Hy | repeat constructor; assumption].
Qed.

(** X1. In every reachable state the ids of the stored readings are pairwise
    distinct and grow along the table, and so do the ids of the anomalies:
    table order is id order. *)
Theorem primary_keys_unique (db : Session) :
  reachable db ->
  NoDup (map TelemetryData.id (telemetry_data db))
  /\ NoDup (map Anomaly.id (anomalies db))
  /\ StronglySorted Z.lt (map TelemetryData.id (telemetry_data db))
  /\ StronglySorted Z.lt (map Anomaly.id (anomalies db)).
Proof.
  induction 1 as [|db db' _ (IH1 & IH2 & IH3 & IH4) Hstep]; [repeat split; constructor|].
  destruct (step_tables db db' Hstep) as [[->|(row & -> & Hrow)] [->|(a & -> & Ha)]];
    rewrite ?map_app; cbn [map]; repeat split; try assumption;
    try (apply NoDup_snoc; try assumption; rewrite ?Hrow, ?Ha; apply next_id_fresh);
    apply StronglySorted_snoc; try assumption;
    rewrite ?Hrow, ?Ha; apply next_id_above.
Qed.

Lemma primary_keys_unique_scenario_B :
  NoDup (map TelemetryData.id (telemetry_data scenario_B_flagged))
  /\ NoDup (map Anomaly.id (anomalies scenario_B_flagged))
  /\ StronglySorted Z.lt (map TelemetryData.id (telemetry_data scenario_B_flagged))
  /\ StronglySorted Z.lt (map Anomaly.id (anomalies scenario_B_flagged)).
Proof.
  apply primary_keys_unique.
  eapply reachable_step; [apply post_all_reachable; constructor|].
  apply step_detect.
Defined.

(** X2. No sequence of operations removes or changes a stored row: after it,
    each table is the table before followed by the rows added since. *)
Theorem tables_append_only (db db' : Session) :
  steps db db' ->
  exists new_readings new_anomalies,
    telemetry_data db' = telemetry_data db ++ new_readings
    /\ anomalies db' = anomalies db ++ new_anomalies.
Proof.
  induction 1 as [db|db db1 db2 _ (l1 & l2 & E1 & E2) Hstep].
  - exists [], []. rewrite !app_nil_r. split; reflexivity.
  - destruct (step_tables db1 db2 Hstep) as [[->|(row & -> & _)] [->|(a & -> & _)]];
      rewrite ?E1, ?E2, <- ?app_assoc; eauto.
Qed.

Lemma tables_append_only_scenario_B :
  exists new_readings new_anomalies,
    telemetry_data scenario_B_flagged = telemetry_data scenario_B ++ new_readings
    /\ anomalies scenario_B_flagged = anomalies scenario_B ++ new_anomalies.
Proof.
  apply (tables_append_only scenario_B scenario_B_flagged).
  eapply steps_more; [apply steps_none|]. apply step_detect.
Defined.

(** ** Paging *)

Lemma page_length {A : Type} (skip limit : nat) (l : list A) :
  List.length (crud.page skip limit l) = Nat.min limit (List.length l - skip).
Proof. unfold crud.page. rewrite length_firstn, length_skipn. reflexivity. Qed.

Lemma firstn_plus {A : Type} (n m : nat) (l : list A) :
  firstn (n + m) l = firstn n l ++ firstn m (skipn n l).
Proof.
  revert l. induction n as [|n IH]; intros l; [reflexivity|].
  destruct l as [|x l]; cbn; [now rewrite firstn_nil|]. now rewrite IH.
Qed.

Lemma page_app {A : Type} (skip n m : nat) (l : list A) :
  crud.page skip (n + m) l = crud.page skip n l ++ crud.page (skip + n) m l.
Proof.
  unfold crud.page. rewrite firstn_plus, skipn_skipn, (Nat.add_comm n skip).
  reflexivity.
Qed.

Lemma page_nil_iff {A : Type} (skip limit : nat) (l : list A) :
  crud.page skip limit l = [] <-> limit = 0 \/ List.length l <= skip.
Proof.
  rewrite <- length_zero_iff_nil, page_length. lia.
Qed.

Lemma page_In {A : Type} (skip limit : nat) (l : list A) (x : A) :
  In x (crud.page skip limit l) -> In x l.
Proof.
  unfold crud.page. intros H.
  rewrite <- (firstn_skipn skip l). apply in_or_app. right.
  rewrite <- (firstn_skipn limit (skipn skip l)). apply in_or_app. left. exact H.
Qed.

Lemma pages_concat {A : Type} (n k : nat) (l : list A) :
  List.concat (map (fun i => crud.page (i * n) n l) (seq 0 k)) = firstn (k * n) l.
Proof.
  induction k as [|k IH]; [reflexivity|].
  rewrite seq_S, map_app, concat_app, IH. cbn [map List.concat Nat.add].
  rewrite app_nil_r. unfold crud.page.
  replace (S k * n) with (k * n + n) by lia. now rewrite firstn_plus.
Qed.

(** X3. [get_all_telemetry_data] pages through the table: a page holds
    [limit] rows or what is left after [skip]; a page of [n + m] rows is the
    page of [n] followed by the next page of [m]; the first [k] pages of size
    [n] put together are the first [k * n] rows, and as many pages of a
    positive size as there are rows give the whole table, each row once and
    in order. *)
Theorem get_all_pages (db : Session) :
  (forall skip limit,
     List.length (crud.get_all_telemetry_data db skip limit)
     = Nat.min limit (List.length (telemetry_data db) - skip))
  /\ (forall skip n m,
        crud.get_all_telemetry_data db skip (n + m)
        = crud.get_all_telemetry_data db skip n
          ++ crud.get_all_telemetry_data db (skip + n) m)
  /\ (forall n k,
        List.concat (map (fun i => crud.get_all_telemetry_data db (i * n) n) (seq 0 k))
        = firstn (k * n) (telemetry_data db))
  /\ (forall n,
        0 < n ->
        List.concat (map (fun i => crud.get_all_telemetry_data db (i * n) n)
                  (seq 0 (List.length (telemetry_data db))))
        = telemetry_data db).
Proof.
  unfold crud.get_all_telemetry_data.
  split; [intros; apply page_length|].
  split; [intros; apply page_app|].
  split; [intros; apply pages_concat|].
  intros n Hn. rewrite pages_concat. apply firstn_all2. nia.
Qed.

Lemma get_all_pages_scenario_B :
  List.concat (map (fun i => crud.get_all_telemetry_data scenario_B (i * 4) 4) (seq 0 6))
  = telemetry_data scenario_B
  /\ List.length (crud.get_all_telemetry_data scenario_B 4 4) = 2.
Proof.
  destruct (get_all_pages scenario_B) as (Hlen & _ & _ & Hall).
  split; [apply (Hall 4); lia | rewrite Hlen; reflexivity].
Defined.

Lemma ingest_ok_inv (utcnow : Z) (db db' : Session) (body : TelemetryDataCreate.body)
  (row : TelemetryData.t) :
  main.create_telemetry_data utcnow db body = (db', main.HTTP_200 row) ->
  db' = mkSession (telemetry_data db ++ [row]) (anomalies db)
  /\ TelemetryData.id row = next_id (map TelemetryData.id (telemetry_data db))
  /\ TelemetryDataCreate.b_device_id body
     = TelemetryDataCreate.Value (TelemetryData.device_id row)
  /\ TelemetryDataCreate.b_metric_name body
     = TelemetryDataCreate.Value (TelemetryData.metric_name row)
  /\ (exists v,
        TelemetryDataCreate.b_metric_value body = TelemetryDataCreate.Value v
        /\ is_nan v = false
        /\ TelemetryData.metric_value row = sqlite_real v)
  /\ TelemetryData.timestamp row
     = match TelemetryDataCreate.b_timestamp body with
       | TelemetryDataCreate.Value ts => ts
       | _ => utcnow
       end
  /\ TelemetryData.unit row
     = match TelemetryDataCreate.b_unit body with
       | TelemetryDataCreate.Value u => u
       | _ => None
       end
  /\ TelemetryData.device_id row <> EmptyString
  /\ TelemetryData.metric_name row <> EmptyString
  /\ TelemetryDataCreate.b_timestamp body <> TelemetryDataCreate.Invalid
  /\ TelemetryDataCreate.b_unit body <> TelemetryDataCreate.Invalid.
Proof.
  destruct (TelemetryDataCreate.validate utcnow body) as [t|e] eqn:E.
  - rewrite (ingest_Return utcnow db body t E).
    apply validate_Return_inv in E.
    destruct E as (Hd & Hm & Hv & Hdn & Hmn & Hts & Hu & Et & Eu).
    destruct (is_nan (TelemetryDataCreate.metric_value t)) eqn:En;
      intros H; [apply (f_equal snd) in H; discriminate H|].
    injection H as <- <-. cbn.
    split; [reflexivity|]. split; [reflexivity|]. split; [exact Hd|].
    split; [exact Hm|]. split; [eauto|]. tauto.
  - unfold main.create_telemetry_data. rewrite E.
    intros H. apply (f_equal snd) in H. discriminate H.
Qed.

Lemma of_device_spec (device_id : string) (d : TelemetryData.t) :
  crud.of_device device_id d = true <-> TelemetryData.device_id d = device_id.
Proof. unfold crud.of_device. apply String.eqb_eq. Qed.

Lemma of_metric_spec (device_id metric_name : string) (d : TelemetryData.t) :
  crud.of_metric device_id metric_name d = true
  <-> TelemetryData.device_id d = device_id /\ TelemetryData.metric_name d = metric_name.
Proof. unfold crud.of_metric. rewrite andb_true_iff, !String.eqb_eq. tauto. Qed.


Lemma recent_by_device_length (db : Session) (device_id : string) (count : nat) :
  List.length (crud.get_recent_telemetry_by_device db device_id count)
  = Nat.min count (List.length (filter (crud.of_device device_id) (telemetry_data db))).
Proof.
  unfold crud.get_recent_telemetry_by_device, crud.limit.
  rewrite length_firstn, (Permutation_length (order_by_perm _)). reflexivity.
Qed.



(** X5. [read_telemetry_by_device] answers 404 exactly when the requested page
    is empty, that is when [limit] is 0 or [skip] is not below the number of
    rows of the device, whether or not the device has readings; otherwise it
    returns the page, whose rows are stored readings of the device. *)
Theorem read_telemetry_by_device_404 (db : Session) (device_id : string)
  (skip limit : nat) :
  (main.read_telemetry_by_device db device_id skip limit
   = main.HTTPException 404 "No telemetry data found for this device."
   <-> limit = 0
       \/ List.length (filter (crud.of_device device_id) (telemetry_data db)) <= skip)
  /\ (forall rows,
        main.read_telemetry_by_device db device_id skip limit = main.OK rows ->
        rows = crud.get_telemetry_by_device db device_id skip limit
        /\ List.length rows
           = Nat.min limit
               (List.length (filter (crud.of_device device_id) (telemetry_data db)) - skip)
        /\ Forall (fun d => In d (telemetry_data db)
                            /\ TelemetryData.device_id d = device_id) rows).
Proof.
  unfold main.read_telemetry_by_device.
  pose proof (page_nil_iff skip limit
                (filter (crud.of_device device_id) (telemetry_data db))) as Hnil.
  fold (crud.get_telemetry_by_device db device_id skip limit) in Hnil.
  pose proof (page_length skip limit
                (filter (crud.of_device device_id) (telemetry_data db))) as Hlen.
  fold (crud.get_telemetry_by_device db device_id skip limit) in Hlen.
  assert (Hin : Forall (fun d => In d (telemetry_data db)
                                 /\ TelemetryData.device_id d = device_id)
                  (crud.get_telemetry_by_device db device_id skip limit)).
  { apply Forall_forall. intros d Hd. apply page_In, filter_In in Hd.
    rewrite of_device_spec in Hd. exact Hd. }
  destruct (crud.get_telemetry_by_device db device_id skip limit) as [|x rows'].
  - split; [split; [intros _; apply Hnil; reflexivity | reflexivity]|].
    intros rows H. discriminate.
  - split.
    + split; [discriminate|]. intros H. apply Hnil in H. discriminate.
    + intros rows H. injection H as <-. repeat split; assumption.
Qed.

Lemma read_telemetry_by_device_404_scenario_B :
  main.read_telemetry_by_device scenario_B "sensor-alpha-001" 6 100
  = main.HTTPException 404 "No telemetry data found for this device."
  /\ main.read_telemetry_by_device scenario_B "sensor-alpha-001" 0 0
     = main.HTTPException 404 "No telemetry data found for this device.".
Proof.
  split.
  - apply (read_telemetry_by_device_404 scenario_B "sensor-alpha-001" 6 100).
    right. vm_compute. lia.
  - apply (read_telemetry_by_device_404 scenario_B "sensor-alpha-001" 0 0).
    left. reflexivity.
Defined.

(** ** Ordered queries *)

Lemma StronglySorted_app_r {A : Type} (R : A -> A -> Prop) (l1 l2 : list A) :
  StronglySorted R (l1 ++ l2) -> StronglySorted R l2.
Proof.
  induction l1 as [|x l1 IH]; cbn; intros H; [exact H|].
  inversion H; subst. auto.
Qed.

Lemma StronglySorted_page {A : Type} (R : A -> A -> Prop) (skip limit : nat) (l : list A) :
  StronglySorted R l -> StronglySorted R (crud.page skip limit l).
Proof.
  intros H. unfold crud.page.
  rewrite <- (firstn_skipn skip l) in H. apply StronglySorted_app_r in H.
  rewrite <- (firstn_skipn limit (skipn skip l)) in H.
  apply StronglySorted_app_inv in H. apply H.
Qed.

Lemma StronglySorted_impl_aux {A : Type} (R R' : A -> A -> Prop) (l : list A) :
  StronglySorted R l -> (forall a b, R a b -> R' a b) -> StronglySorted R' l.
Proof.
  intros H Himp. induction H as [|x l _ IH Hx]; constructor; [exact IH|].
  eapply Forall_impl; [|exact Hx]. intros y. apply Himp.
Qed.

Section InsertionSort.

Context {A : Type} (first : A -> A -> bool).
Hypothesis first_total : forall a b, first a b = true \/ first b a = true.
Hypothesis first_trans :
  forall a b c, first a b = true -> first b c = true -> first a c = true.

Lemma insert_by_perm (d : A) (l : list A) :
  Permutation (crud.insert_by first d l) (d :: l).
Proof.
  induction l as [|x l IH]; cbn; [reflexivity|].
  destruct (first d x); [reflexivity|]. rewrite IH. apply perm_swap.
Qed.

Lemma order_by_first_perm (l : list A) : Permutation (crud.order_by first l) l.
Proof.
  induction l as [|x l IH]; cbn; [reflexivity|].
  rewrite insert_by_perm. now constructor.
Qed.

Lemma insert_by_sorted (d : A) (l : list A) :
  StronglySorted (fun a b => first a b = true) l ->
  StronglySorted (fun a b => first a b = true) (crud.insert_by first d l).
Proof.
  induction 1 as [|x l Hs IH Hx]; cbn; [repeat constructor|].
  destruct (first d x) eqn:E.
  - constructor; [now constructor|]. constructor; [exact E|].
    eapply Forall_impl; [|exact Hx]. intros y Hy. exact (first_trans _ _ _ E Hy).
  - constructor; [exact IH|].
    apply Forall_forall. intros y Hy.
    apply (Permutation_in _ (insert_by_perm d l)) in Hy.
    destruct Hy as [<-|Hy].
    + destruct (first_total x d) as [H|H]; [exact H|congruence].
    + rewrite Forall_forall in Hx. apply Hx, Hy.
Qed.

Lemma order_by_first_sorted (l : list A) :
  StronglySorted (fun a b => first a b = true) (crud.order_by first l).
Proof.
  induction l as [|x l IH]; cbn; [constructor|]. apply insert_by_sorted, IH.
Qed.

End InsertionSort.

Lemma order_by_asc_sorted {A : Type} (key : A -> Z) (l : list A) :
  StronglySorted (fun a b => (key a <= key b)%Z) (crud.order_by (crud.asc key) l).
Proof.
  eapply StronglySorted_impl_aux.
  - apply (order_by_first_sorted (crud.asc key)); unfold crud.asc; intros; lia.
  - unfold crud.asc. intros a b H. lia.
Qed.

Lemma order_by_desc_sorted {A : Type} (key : A -> Z) (l : list A) :
  StronglySorted (fun a b => (key b <= key a)%Z) (crud.order_by (crud.desc key) l).
Proof.
  eapply StronglySorted_impl_aux.
  - apply (order_by_first_sorted (crud.desc key)); unfold crud.desc; intros; lia.
  - unfold crud.desc. intros a b H. lia.
Qed.

(** X6. [get_recent_telemetry_by_device] returns stored readings of the
    device, most recent first, [count] of them or all when there are fewer;
    its first row is at least as recent as every reading of the device; and
    the endpoint answers 404 exactly when [count] is 0 or the device has no
    reading. *)
Theorem recent_by_device (db : Session) (device_id : string) (count : nat) :
  Forall (fun d => In d (telemetry_data db) /\ TelemetryData.device_id d = device_id)
    (crud.get_recent_telemetry_by_device db device_id count)
  /\ StronglySorted not_older (crud.get_recent_telemetry_by_device db device_id count)
  /\ List.length (crud.get_recent_telemetry_by_device db device_id count)
     = Nat.min count
         (List.length (filter (crud.of_device device_id) (telemetry_data db)))
  /\ (forall top rest d,
        crud.get_recent_telemetry_by_device db device_id count = top :: rest ->
        In d (telemetry_data db) ->
        TelemetryData.device_id d = device_id ->
        (TelemetryData.timestamp d <= TelemetryData.timestamp top)%Z)
  /\ (main.read_recent_telemetry_by_device db device_id count
      = main.HTTPException 404 "No recent telemetry data found for this device."
      <-> count = 0
          \/ forall d, In d (telemetry_data db) -> TelemetryData.device_id d <> device_id).
Proof.
  pose proof (recent_by_device_length db device_id count) as Hlen.
  unfold main.read_recent_telemetry_by_device.
  unfold crud.get_recent_telemetry_by_device, crud.limit in *.
  set (m := filter (crud.of_device device_id) (telemetry_data db)) in *.
  set (s := crud.order_by_timestamp_desc m) in *.
  assert (Hperm : Permutation s m) by apply order_by_perm.
  assert (Hsorted : StronglySorted not_older s) by apply order_by_sorted.
  assert (Hm : forall d, In d m <-> In d (telemetry_data db)
                                    /\ TelemetryData.device_id d = device_id).
  { intros d. unfold m. rewrite filter_In, of_device_spec. tauto. }
  split.
  { apply Forall_forall. intros d Hd. apply Hm, (Permutation_in _ Hperm).
    rewrite <- (firstn_skipn count s). apply in_or_app. left. exact Hd. }
  split.
  { rewrite <- (firstn_skipn count s) in Hsorted.
    apply StronglySorted_app_inv in Hsorted. apply Hsorted. }
  split; [exact Hlen|]. split.
  { intros top rest d E Hd Hdev.
    assert (Hin : In d s) by (apply (Permutation_in _ (Permutation_sym Hperm)), Hm; auto).
    destruct s as [|x s']; [rewrite firstn_nil in E; discriminate|].
    destruct count as [|count]; [discriminate|]. cbn in E. injection E as <- _.
    inversion Hsorted as [|y ys _ Hx]; subst.
    destruct Hin as [<-|Hin]; [lia|].
    rewrite Forall_forall in Hx. apply (Hx d Hin). }
  assert (Hempty : m = [] <-> forall d, In d (telemetry_data db) ->
                                        TelemetryData.device_id d <> device_id).
  { split.
    - intros E d Hd Hdev. assert (In d m) by (apply Hm; auto). rewrite E in H. exact H.
    - intros H. destruct m as [|x m'] eqn:E; [reflexivity|]. exfalso.
      assert (Hx : In x (x :: m')) by (left; reflexivity).
      apply Hm in Hx. destruct Hx as [Hx1 Hx2]. exact (H x Hx1 Hx2). }
  rewrite <- Hempty, <- length_zero_iff_nil.
  destruct (firstn count s) as [|x rows]; cbn [List.length] in Hlen.
  - split; [lia | reflexivity].
  - split; [discriminate | lia].
Qed.

Lemma recent_by_device_scenario_mixed :
  map TelemetryData.id (crud.get_recent_telemetry_by_device scenario_mixed "sensor-alpha-001" 3)
  = [6; 4; 1]%Z
  /\ main.read_recent_telemetry_by_device scenario_mixed "sensor-gamma-003" 10
     = main.HTTPException 404 "No recent telemetry data found for this device.".
Proof.
  split; [reflexivity|].
  apply (recent_by_device scenario_mixed "sensor-gamma-003" 10).
  right. intros d Hd. vm_compute in Hd.
  repeat (destruct Hd as [<-|Hd]; [discriminate|]). contradiction.
Defined.

(** X7. [get_telemetry_for_plotting] returns stored readings of the device
    and metric, oldest first, [limit] of them or all when there are fewer;
    when there are more than [limit], the ones it leaves out are not older
    than any it returns, so it is the newest readings that are missing. *)
Theorem plotting_keeps_oldest (db : Session) (device_id metric_name : string)
  (limit : nat) :
  Forall (fun d => In d (telemetry_data db)
                   /\ TelemetryData.device_id d = device_id
                   /\ TelemetryData.metric_name d = metric_name)
    (crud.get_telemetry_for_plotting db device_id metric_name limit)
  /\ StronglySorted
       (fun d1 d2 => (TelemetryData.timestamp d1 <= TelemetryData.timestamp d2)%Z)
       (crud.get_telemetry_for_plotting db device_id metric_name limit)
  /\ List.length (crud.get_telemetry_for_plotting db device_id metric_name limit)
     = Nat.min limit
         (List.length (filter (crud.of_metric device_id metric_name) (telemetry_data db)))
  /\ exists left_out,
       Permutation
         (crud.get_telemetry_for_plotting db device_id metric_name limit ++ left_out)
         (filter (crud.of_metric device_id metric_name) (telemetry_data db))
       /\ Forall (fun d =>
                    Forall (fun d' =>
                              (TelemetryData.timestamp d <= TelemetryData.timestamp d')%Z)
                      left_out)
            (crud.get_telemetry_for_plotting db device_id metric_name limit).
Proof.
  unfold crud.get_telemetry_for_plotting.
  set (m := filter (crud.of_metric device_id metric_name) (telemetry_data db)).
  set (s := crud.order_by (crud.asc TelemetryData.timestamp) m).
  assert (Hperm : Permutation s m) by apply order_by_first_perm.
  assert (Hsorted : StronglySorted
            (fun d1 d2 => (TelemetryData.timestamp d1 <= TelemetryData.timestamp d2)%Z) s)
    by apply order_by_asc_sorted.
  rewrite <- (firstn_skipn limit s) in Hsorted.
  apply StronglySorted_app_inv in Hsorted. destruct Hsorted as [Hs1 Hs2].
  split.
  { apply Forall_forall. intros d Hd.
    assert (Hin : In d m).
    { apply (Permutation_in _ Hperm). rewrite <- (firstn_skipn limit s).
      apply in_or_app. left. exact Hd. }
    unfold m in Hin. apply filter_In in Hin. rewrite of_metric_spec in Hin. tauto. }
  split; [exact Hs1|]. split.
  { rewrite length_firstn, (Permutation_length Hperm). reflexivity. }
  exists (skipn limit s). split; [rewrite firstn_skipn; exact Hperm | exact Hs2].
Qed.

Lemma plotting_keeps_oldest_scenario_mixed :
  map TelemetryData.id
    (crud.get_telemetry_for_plotting scenario_mixed "sensor-alpha-001" "temperature" 2)
  = [2; 5]%Z
  /\ List.length
       (crud.get_telemetry_for_plotting scenario_mixed "sensor-alpha-001" "temperature" 2)
     = 2.
Proof.
  destruct (plotting_keeps_oldest scenario_mixed "sensor-alpha-001" "temperature" 2)
    as (_ & _ & Hlen & _).
  split; [reflexivity | rewrite Hlen; reflexivity].
Defined.

(** ** The plot *)

Lemma plotting_length (db : Session) (device_id metric_name : string) (limit : nat) :
  List.length (crud.get_telemetry_for_plotting db device_id metric_name limit)
  = Nat.min limit
      (List.length (filter (crud.of_metric device_id metric_name) (telemetry_data db))).
Proof.
  unfold crud.get_telemetry_for_plotting.
  rewrite length_firstn, (Permutation_length (order_by_first_perm _ _)). reflexivity.
Qed.

Lemma is_in_spec (ts : Z) (l : list Z) : main.is_in ts l = true <-> In ts l.
Proof.
  unfold main.is_in. rewrite existsb_exists. split.
  - intros (x & Hx & E). apply Z.eqb_eq in E. now subst.
  - intros H. exists ts. split; [exact H | apply Z.eqb_refl].
Qed.

Lemma StronglySorted_filter {A : Type} (R : A -> A -> Prop) (f : A -> bool) (l : list A) :
  StronglySorted R l -> StronglySorted R (filter f l).
Proof.
  induction 1 as [|x l _ IH Hx]; cbn; [constructor|].
  destruct (f x); [|exact IH]. constructor; [exact IH|].
  apply Forall_forall. intros y Hy. apply filter_In in Hy.
  rewrite Forall_forall in Hx. apply Hx, Hy.
Qed.

Lemma StronglySorted_map {A B : Type} (R : B -> B -> Prop) (g : A -> B) (l : list A) :
  StronglySorted (fun a b => R (g a) (g b)) l -> StronglySorted R (map g l).
Proof.
  induction 1 as [|x l _ IH Hx]; cbn; constructor; [exact IH|].
  apply Forall_map. exact Hx.
Qed.

Lemma filter_nil_iff {A : Type} (f : A -> bool) (l : list A) :
  filter f l = [] <-> forall x, In x l -> f x = false.
Proof.
  induction l as [|x l IH]; cbn; [tauto|].
  destruct (f x) eqn:E; split.
  - discriminate.
  - intros H. specialize (H x (or_introl eq_refl)). congruence.
  - intros H y [<-|Hy]; [exact E | now apply IH].
  - intros H. apply IH. intros y Hy. apply H. now right.
Qed.

(** X8. [get_telemetry_plot] answers 404 exactly when no reading of the device
    and metric is stored.  Otherwise it draws at most the 200 oldest readings,
    as many values as timestamps; the marked anomalies are as many values as
    timestamps, in ascending order of time, and a time is marked exactly when
    it is the time of a drawn reading and of an anomaly of the device and
    metric. *)
Theorem plot_series (db : Session) (device_id metric_name : string) :
  (main.get_telemetry_plot db device_id metric_name
   = main.HTTPException 404 "No telemetry data found for plotting."
   <-> forall d, In d (telemetry_data db) ->
                 TelemetryData.device_id d = device_id ->
                 TelemetryData.metric_name d <> metric_name)
  /\ (forall p,
        main.get_telemetry_plot db device_id metric_name = main.OK p ->
        main.Plot.timestamps p
        = map TelemetryData.timestamp
            (crud.get_telemetry_for_plotting db device_id metric_name 200)
        /\ main.Plot.metric_values p
           = map TelemetryData.metric_value
               (crud.get_telemetry_for_plotting db device_id metric_name 200)
        /\ List.length (main.Plot.timestamps p) = List.length (main.Plot.metric_values p)
        /\ List.length (main.Plot.timestamps p) <= 200
        /\ List.length (main.Plot.anomaly_timestamps p)
           = List.length (main.Plot.anomaly_values p)
        /\ StronglySorted Z.le (main.Plot.anomaly_timestamps p)
        /\ (forall ts,
              In ts (main.Plot.anomaly_timestamps p)
              <-> In ts (main.Plot.timestamps p)
                  /\ exists a,
                       In a (anomalies db)
                       /\ Anomaly.device_id a = device_id
                       /\ Anomaly.metric_name a = metric_name
                       /\ Anomaly.timestamp a = ts)).
Proof.
  unfold main.get_telemetry_plot. cbv zeta.
  pose proof (plotting_length db device_id metric_name 200) as Hlen.
  set (rows := crud.get_telemetry_for_plotting db device_id metric_name 200) in *.
  set (marks := crud.order_by (crud.asc Anomaly.timestamp)
                  (filter (main.of_series device_id metric_name) (anomalies db))).
  assert (Hsorted : StronglySorted
                      (fun a b => (Anomaly.timestamp a <= Anomaly.timestamp b)%Z) marks)
    by apply order_by_asc_sorted.
  assert (Hmarks : forall a, In a marks
                             <-> In a (anomalies db)
                                 /\ Anomaly.device_id a = device_id
                                 /\ Anomaly.metric_name a = metric_name).
  { intros a. unfold marks. split.
    - intros Hin. apply (Permutation_in _ (order_by_first_perm _ _)), filter_In in Hin.
      unfold main.of_series in Hin. rewrite andb_true_iff, !String.eqb_eq in Hin. tauto.
    - intros H. apply (Permutation_in _ (Permutation_sym (order_by_first_perm _ _))).
      apply filter_In. unfold main.of_series. rewrite andb_true_iff, !String.eqb_eq. tauto. }
  clearbody rows marks.
  assert (Hnone : filter (crud.of_metric device_id metric_name) (telemetry_data db) = []
                  <-> forall d, In d (telemetry_data db) ->
                                TelemetryData.device_id d = device_id ->
                                TelemetryData.metric_name d <> metric_name).
  { rewrite filter_nil_iff. split.
    - intros H d Hd Hdev Hmet.
      assert (crud.of_metric device_id metric_name d = true)
        by (apply of_metric_spec; auto).
      specialize (H d Hd). congruence.
    - intros H d Hd. destruct (crud.of_metric device_id metric_name d) eqn:E; [|reflexivity].
      apply of_metric_spec in E. destruct E as [E1 E2]. exfalso. exact (H d Hd E1 E2). }
  rewrite <- Hnone, <- length_zero_iff_nil.
  assert (Hok : rows <> [] ->
                match rows with
                | [] => main.HTTPException 404 "No telemetry data found for plotting."
                | _ :: _ =>
                    main.OK
                      (main.Plot.mk (map TelemetryData.timestamp rows)
                         (map TelemetryData.metric_value rows)
                         (map Anomaly.timestamp
                            (filter (fun a => main.is_in (Anomaly.timestamp a)
                                                (map TelemetryData.timestamp rows)) marks))
                         (map Anomaly.metric_value
                            (filter (fun a => main.is_in (Anomaly.timestamp a)
                                                (map TelemetryData.timestamp rows)) marks)))
                end
                = main.OK
                    (main.Plot.mk (map TelemetryData.timestamp rows)
                       (map TelemetryData.metric_value rows)
                       (map Anomaly.timestamp
                          (filter (fun a => main.is_in (Anomaly.timestamp a)
                                              (map TelemetryData.timestamp rows)) marks))
                       (map Anomaly.metric_value
                          (filter (fun a => main.is_in (Anomaly.timestamp a)
                                              (map TelemetryData.timestamp rows)) marks)))).
  { destruct rows; [congruence | reflexivity]. }
  destruct (list_eq_dec Z.eq_dec (map TelemetryData.timestamp rows) []) as [E|E].
  - apply map_eq_nil in E. subst rows. cbn [List.length] in Hlen.
    split; [split; [lia | reflexivity]|]. intros p H. discriminate.
  - assert (Hne : rows <> []) by (intros ->; apply E; reflexivity).
    rewrite (Hok Hne). clear Hok.
    split.
    { split; [discriminate|]. intros H. destruct rows; [congruence|].
      cbn [List.length] in Hlen. lia. }
    intros p H.
    assert (Hp : p = main.Plot.mk (map TelemetryData.timestamp rows)
                       (map TelemetryData.metric_value rows)
                       (map Anomaly.timestamp
                          (filter (fun a => main.is_in (Anomaly.timestamp a)
                                              (map TelemetryData.timestamp rows)) marks))
                       (map Anomaly.metric_value
                          (filter (fun a => main.is_in (Anomaly.timestamp a)
                                              (map TelemetryData.timestamp rows)) marks)))
      by congruence.
    rewrite Hp. cbn [main.Plot.timestamps main.Plot.metric_values
      main.Plot.anomaly_timestamps main.Plot.anomaly_values].
    split; [reflexivity|]. split; [reflexivity|].
    split; [rewrite !length_map; reflexivity|].
    split; [rewrite length_map; lia|].
    split; [rewrite !length_map; reflexivity|].
    split; [apply StronglySorted_map, StronglySorted_filter; exact Hsorted|].
    intros ts. rewrite in_map_iff. split.
    + intros (a & Ha & Hin). apply filter_In in Hin. destruct Hin as [Hin Hts].
      apply is_in_spec in Hts. rewrite Ha in Hts. split; [exact Hts|].
      apply Hmarks in Hin. exists a. tauto.
    + intros (Hts & a & Hin & Hd & Hm & Ha). exists a. split; [exact Ha|].
      apply filter_In. split; [apply Hmarks; auto|].
      apply is_in_spec. rewrite Ha. exact Hts.
Qed.

(** After one detection in scenario B: six points drawn, the sixth marked. *)
Lemma plot_series_scenario_B :
  main.get_telemetry_plot scenario_B_flagged "sensor-alpha-001" "temperature"
  = main.OK (main.Plot.mk [1; 2; 3; 4; 5; 6]%Z [10; 11; 9; 10; 10; 30]%float
               [6]%Z [30]%float)
  /\ main.get_telemetry_plot scenario_B_flagged "sensor-alpha-001" "humidity"
     = main.HTTPException 404 "No telemetry data found for plotting.".
Proof.
  split; [reflexivity|].
  apply (plot_series scenario_B_flagged "sensor-alpha-001" "humidity").
  intros d Hd _. vm_compute in Hd.
  repeat (destruct Hd as [<-|Hd]; [discriminate|]). contradiction.
Defined.

(** ** The anomalies listing *)

Lemma get_anomalies_all (db : Session) (limit : nat) :
  List.length (anomalies db) <= limit ->
  Permutation (crud.get_anomalies db 0 limit) (anomalies db).
Proof.
  intros Hle. unfold crud.get_anomalies, crud.page. rewrite skipn_0.
  rewrite firstn_all2; [apply order_by_first_perm|].
  rewrite (Permutation_length (order_by_first_perm _ _)). exact Hle.
Qed.

(** X9. [get_anomalies] lists stored anomalies, most recent first, a page of
    [limit] rows or of what is left after [skip]; from [skip = 0] with a
    [limit] not below their number it lists them all; and an anomaly that
    [detect_anomaly_zscore] has just returned is in that listing. *)
Theorem anomalies_listing (db : Session) (skip limit : nat) :
  StronglySorted (fun a b => (Anomaly.timestamp b <= Anomaly.timestamp a)%Z)
    (crud.get_anomalies db skip limit)
  /\ Forall (fun a => In a (anomalies db)) (crud.get_anomalies db skip limit)
  /\ List.length (crud.get_anomalies db skip limit)
     = Nat.min limit (List.length (anomalies db) - skip)
  /\ (List.length (anomalies db) <= limit ->
      Permutation (crud.get_anomalies db 0 limit) (anomalies db))
  /\ (forall r ws th db' a,
        crud.detect_anomaly_zscore db r ws th = (db', Return (Some a)) ->
        List.length (anomalies db) < limit ->
        In a (crud.get_anomalies db' 0 limit)
        /\ main.read_anomalies db' 0 limit = main.OK (crud.get_anomalies db' 0 limit)).
Proof.
  split; [apply StronglySorted_page, order_by_desc_sorted|].
  split.
  { apply Forall_forall. intros a Ha. unfold crud.get_anomalies in Ha.
    apply page_In in Ha. exact (Permutation_in _ (order_by_first_perm _ _) Ha). }
  split.
  { unfold crud.get_anomalies.
    rewrite page_length, (Permutation_length (order_by_first_perm _ _)). reflexivity. }
  split; [apply get_anomalies_all|].
  intros r ws th db' a H Hlt. split; [|reflexivity].
  apply detect_some_inv in H. cbv zeta in H.
  destruct H as (_ & _ & _ & _ & -> & _).
  eapply Permutation_in; [symmetry; apply get_anomalies_all|].
  - cbn [anomalies]. rewrite length_app. cbn. lia.
  - cbn [anomalies]. apply in_or_app. right. left. reflexivity.
Qed.

Lemma anomalies_listing_scenario_B :
  In (newest_anomaly scenario_B_flagged) (crud.get_anomalies scenario_B_flagged 0 100)
  /\ crud.get_anomalies scenario_B 0 100 = [].
Proof.
  destruct (anomalies_listing scenario_B 0 100) as (_ & _ & _ & _ & H).
  split; [|reflexivity].
  apply (H (newest scenario_B) 50 2.5%float scenario_B_flagged
           (newest_anomaly scenario_B_flagged)); [|vm_compute; lia].
  vm_compute. reflexivity.
Defined.

(** ** The detector and the other readings *)

Lemma detect_snd_ext (db1 db2 : Session) (r : TelemetryData.t) (ws : nat) (th : float) :
  crud.recent_data db1 r ws = crud.recent_data db2 r ws ->
  anomalies db1 = anomalies db2 ->
  snd (crud.detect_anomaly_zscore db1 r ws th)
  = snd (crud.detect_anomaly_zscore db2 r ws th).
Proof.
  intros Hw Ha. unfold crud.detect_anomaly_zscore. cbv zeta. rewrite Hw.
  destruct (List.length (crud.recent_data db2 r ws) <? 5); [reflexivity|].
  destruct (existsb is_nan (crud.recent_data db2 r ws)); [reflexivity|].
  destruct (np.std (crud.recent_data db2 r ws) =? 0)%float; [reflexivity|].
  destruct (is_nan (TelemetryData.metric_value r)); [reflexivity|].
  destruct (th <? _)%float; [|reflexivity].
  unfold crud.create_anomaly. rewrite Ha.
  destruct (existsb _ (anomalies db2)); reflexivity.
Qed.

Lemma recent_data_other_series (db : Session) (telemetry : TelemetryDataCreate.t)
  (r : TelemetryData.t) (ws : nat) :
  TelemetryDataCreate.device_id telemetry <> TelemetryData.device_id r
  \/ TelemetryDataCreate.metric_name telemetry <> TelemetryData.metric_name r ->
  crud.recent_data (fst (crud.create_telemetry_data db telemetry)) r ws
  = crud.recent_data db r ws.
Proof.
  intros Hne. unfold crud.recent_data, crud.recent_rows.
  cbn [fst crud.create_telemetry_data telemetry_data]. rewrite filter_app. cbn [filter].
  destruct (crud.same_series r _) eqn:E; [|rewrite app_nil_r; reflexivity].
  apply same_series_spec in E. cbn in E. tauto.
Qed.

(** X10. Storing a reading of another device or of another metric changes
    neither the window fetched for a reading nor what
    [detect_anomaly_zscore] returns for it. *)
Theorem other_series_do_not_interfere (db : Session) (telemetry : TelemetryDataCreate.t)
  (r : TelemetryData.t) (ws : nat) (th : float) :
  TelemetryDataCreate.device_id telemetry <> TelemetryData.device_id r
  \/ TelemetryDataCreate.metric_name telemetry <> TelemetryData.metric_name r ->
  crud.recent_data (fst (crud.create_telemetry_data db telemetry)) r ws
  = crud.recent_data db r ws
  /\ snd (crud.detect_anomaly_zscore (fst (crud.create_telemetry_data db telemetry)) r ws th)
     = snd (crud.detect_anomaly_zscore db r ws th).
Proof.
  intros Hne. pose proof (recent_data_other_series db telemetry r ws Hne) as Hw.
  split; [exact Hw|]. apply detect_snd_ext; [exact Hw | reflexivity].
Qed.

Lemma other_series_do_not_interfere_scenario_D :
  crud.recent_data
    (fst (crud.create_telemetry_data scenario_D
            (TelemetryDataCreate.mk 7 "sensor-alpha-001" "humidity" 500 None)))
    (newest scenario_D) 50
  = [99; 101; 98; 102; 100]%float.
Proof.
  destruct (other_series_do_not_interfere scenario_D
              (TelemetryDataCreate.mk 7 "sensor-alpha-001" "humidity" 500 None)
              (newest scenario_D) 50 2.5) as [H _].
  - right. cbn. discriminate.
  - rewrite H. reflexivity.
Defined.

(** X11. The window of a reading the ingestion endpoint has just stored is
    made of the readings of its device and metric that were stored before it:
    the [window_size] most recent of them, or all when there are fewer.  No
    earlier row is lost to the exclusion by id, and the reading itself is not
    in its window. *)
Theorem window_of_fresh_reading (utcnow : Z) (db db' : Session)
  (body : TelemetryDataCreate.body) (row : TelemetryData.t) (ws : nat) :
  main.create_telemetry_data utcnow db body = (db', main.HTTP_200 row) ->
  crud.recent_rows db' row ws
  = firstn ws
      (crud.order_by_timestamp_desc
         (filter (crud.of_metric (TelemetryData.device_id row)
                    (TelemetryData.metric_name row))
            (telemetry_data db)))
  /\ ~ In row (crud.recent_rows db' row ws)
  /\ List.length (crud.recent_data db' row ws)
     = Nat.min ws
         (List.length
            (filter (crud.of_metric (TelemetryData.device_id row)
                       (TelemetryData.metric_name row))
               (telemetry_data db))).
Proof.
  intros H. apply ingest_ok_inv in H. destruct H as (-> & Hid & _).
  assert (Hf : filter (crud.same_series row) (telemetry_data db ++ [row])
               = filter (crud.of_metric (TelemetryData.device_id row)
                           (TelemetryData.metric_name row)) (telemetry_data db)).
  { rewrite filter_app. cbn [filter].
    assert (E : crud.same_series row row = false).
    { unfold crud.same_series. rewrite Z.eqb_refl, andb_false_r. reflexivity. }
    rewrite E, app_nil_r. apply filter_ext_in. intros d Hd.
    unfold crud.same_series, crud.of_metric.
    assert (Hlt : (TelemetryData.id d < TelemetryData.id row)%Z).
    { rewrite Hid. pose proof (next_id_above (map TelemetryData.id (telemetry_data db))) as Ha.
      rewrite Forall_forall in Ha. apply Ha, in_map, Hd. }
    destruct (Z.eqb_spec (TelemetryData.id d) (TelemetryData.id row)); [lia|].
    rewrite andb_true_r. reflexivity. }
  assert (Hrows : crud.recent_rows
                    (mkSession (telemetry_data db ++ [row]) (anomalies db)) row ws
                  = firstn ws
                      (crud.order_by_timestamp_desc
                         (filter (crud.of_metric (TelemetryData.device_id row)
                                    (TelemetryData.metric_name row))
                            (telemetry_data db)))).
  { unfold crud.recent_rows, crud.limit. cbn [telemetry_data]. rewrite Hf. reflexivity. }
  split; [exact Hrows|]. split.
  - rewrite Hrows. intros Hin.
    assert (Hin' : In row (telemetry_data db)).
    { assert (Hs : In row (crud.order_by_timestamp_desc
                            (filter (crud.of_metric (TelemetryData.device_id row)
                                       (TelemetryData.metric_name row))
                               (telemetry_data db)))).
      { rewrite <- (firstn_skipn ws _). apply in_or_app. left. exact Hin. }
      apply (Permutation_in _ (order_by_perm _)), filter_In in Hs. apply Hs. }
    apply (next_id_fresh (map TelemetryData.id (telemetry_data db))).
    rewrite <- Hid. apply in_map, Hin'.
  - unfold crud.recent_data. rewrite Hrows, length_map, length_firstn.
    rewrite (Permutation_length (order_by_perm _)). reflexivity.
Qed.

Lemma window_of_fresh_reading_scenario_B :
  map TelemetryData.id (crud.recent_rows scenario_B (newest scenario_B) 3) = [5; 4; 3]%Z.
Proof.
  destruct (window_of_fresh_reading 6 (db_of [10; 11; 9; 10; 10]%float) scenario_B
              (reading_body 6 30) (newest scenario_B) 3 eq_refl) as (H & _).
  rewrite H. reflexivity.
Defined.

(** ** Parameters under which nothing is flagged *)

Lemma recent_data_length_le (db : Session) (r : TelemetryData.t) (ws : nat) :
  List.length (crud.recent_data db r ws) <= ws.
Proof.
  unfold crud.recent_data, crud.recent_rows, crud.limit.
  rewrite length_map. apply firstn_le_length.
Qed.

(** X12. With a [window_size] of 0 to 4 the detector never flags anything:
    in every state, for every reading and threshold, it returns [None] and
    writes nothing.  (A negative [window_size] is no such size: SQLite reads
    a negative LIMIT as no limit.)  With a threshold that is not a number
    the detector returns no anomaly either and writes nothing: the outcome
    is [None], or the [TypeError] of a [None] among the values. *)
Theorem detector_switched_off (db : Session) (r : TelemetryData.t) (ws : nat)
  (th : float) :
  (ws < 5 -> crud.detect_anomaly_zscore db r ws th = (db, Return None))
  /\ (is_nan th = true ->
      crud.detect_anomaly_zscore db r ws th = (db, Return None)
      \/ crud.detect_anomaly_zscore db r ws th = (db, Raise TypeError)).
Proof.
  split.
  - intros Hws. apply detect_few. pose proof (recent_data_length_le db r ws). lia.
  - intros Hnan.
    destruct (detect_branches db r ws th) as [ | | | | |out _ _ _ _ Hz _]; auto.
    rewrite (is_nan_ltb _ _ Hnan) in Hz. discriminate Hz.
Qed.

Lemma detector_switched_off_scenario_B :
  crud.detect_anomaly_zscore scenario_B (newest scenario_B) 4 2.5
  = (scenario_B, Return None)
  /\ crud.detect_anomaly_zscore scenario_B (newest scenario_B) 50 nan
     = (scenario_B, Return None).
Proof.
  destruct (detector_switched_off scenario_B (newest scenario_B) 4 2.5) as [H1 _].
  destruct (detector_switched_off scenario_B (newest scenario_B) 50 nan) as [_ H2].
  split; [apply H1; lia|].
  destruct (H2 eq_refl) as [H|H]; [exact H|].
  apply (f_equal snd) in H. vm_compute in H. discriminate H.
Defined.

(** ** What the ingestion endpoint answers *)

(** X13. The request model accepts a body exactly when [device_id] and
    [metric_name] hold strings that are not empty, [metric_value] holds a
    float, and [timestamp] and [unit], where present, hold values of their
    types.  A body it does not accept, a missing key included, is answered
    with 422 and the session is left as it was.  An accepted body adds one
    row, which takes the next id, the body's timestamp or the current time
    when the body has none, the body's unit or none, and the value as the
    column keeps it.  The answer is that row, or 500 when the value is a
    NaN. *)
Theorem ingestion_outcomes (utcnow : Z) (db : Session) (body : TelemetryDataCreate.body) :
  ((exists t, TelemetryDataCreate.validate utcnow body = Return t)
   <-> exists d m v,
         TelemetryDataCreate.b_device_id body = TelemetryDataCreate.Value d
         /\ d <> EmptyString
         /\ TelemetryDataCreate.b_metric_name body = TelemetryDataCreate.Value m
         /\ m <> EmptyString
         /\ TelemetryDataCreate.b_metric_value body = TelemetryDataCreate.Value v
         /\ TelemetryDataCreate.b_timestamp body <> TelemetryDataCreate.Invalid
         /\ TelemetryDataCreate.b_unit body <> TelemetryDataCreate.Invalid)
  /\ (forall e,
        TelemetryDataCreate.validate utcnow body = Raise e ->
        main.create_telemetry_data utcnow db body = (db, main.HTTP_422))
  /\ (forall t,
        TelemetryDataCreate.validate utcnow body = Return t ->
        exists row,
          main.create_telemetry_data utcnow db body
          = (mkSession (telemetry_data db ++ [row]) (anomalies db),
             if is_nan (TelemetryDataCreate.metric_value t) then main.HTTP_500
             else main.HTTP_200 row)
          /\ TelemetryData.id row = next_id (map TelemetryData.id (telemetry_data db))
          /\ ~ In (TelemetryData.id row) (map TelemetryData.id (telemetry_data db))
          /\ TelemetryData.timestamp row
             = match TelemetryDataCreate.b_timestamp body with
               | TelemetryDataCreate.Value ts => ts
               | _ => utcnow
               end
          /\ TelemetryDataCreate.b_device_id body
             = TelemetryDataCreate.Value (TelemetryData.device_id row)
          /\ TelemetryDataCreate.b_metric_name body
             = TelemetryDataCreate.Value (TelemetryData.metric_name row)
          /\ TelemetryData.metric_value row
             = sqlite_real (TelemetryDataCreate.metric_value t)
          /\ TelemetryDataCreate.b_metric_value body
             = TelemetryDataCreate.Value (TelemetryDataCreate.metric_value t)
          /\ TelemetryData.unit row
             = match TelemetryDataCreate.b_unit body with
               | TelemetryDataCreate.Value u => u
               | _ => None
               end).
Proof.
  split; [split|split].
  - intros (t & E). apply validate_Return_inv in E.
    destruct E as (Hd & Hm & Hv & Hdn & Hmn & Hts & Hu & _). eauto 10.
  - intros (d & m & v & Hd & Hdn & Hm & Hmn & Hv & Hts & Hu).
    eexists. apply (validate_Return utcnow body d m v); assumption.
  - intros e E. unfold main.create_telemetry_data. rewrite E. reflexivity.
  - intros t E. rewrite (ingest_Return utcnow db body t E).
    apply validate_Return_inv in E.
    destruct E as (Hd & Hm & Hv & _ & _ & _ & _ & Et & Eu).
    eexists. split; [reflexivity|]. cbn.
    split; [reflexivity|]. split; [apply next_id_fresh|]. tauto.
Qed.

(** A body without [metric_value] and one whose timestamp is no date are
    refused; one without timestamp and unit is stored at the current time. *)
Lemma ingestion_outcomes_examples :
  main.create_telemetry_data 9 scenario_A
    (TelemetryDataCreate.mk_body (TelemetryDataCreate.Value 7%Z)
       (TelemetryDataCreate.Value "sensor-alpha-001"%string)
       (TelemetryDataCreate.Value "temperature"%string)
       TelemetryDataCreate.Absent TelemetryDataCreate.Absent)
  = (scenario_A, main.HTTP_422)
  /\ main.create_telemetry_data 9 scenario_A
       (TelemetryDataCreate.mk_body TelemetryDataCreate.Invalid
          (TelemetryDataCreate.Value "sensor-alpha-001"%string)
          (TelemetryDataCreate.Value "temperature"%string)
          (TelemetryDataCreate.Value 10%float) TelemetryDataCreate.Absent)
     = (scenario_A, main.HTTP_422)
  /\ exists row,
       snd (main.create_telemetry_data 9 scenario_A
              (TelemetryDataCreate.mk_body TelemetryDataCreate.Absent
                 (TelemetryDataCreate.Value "sensor-alpha-001"%string)
                 (TelemetryDataCreate.Value "temperature"%string)
                 (TelemetryDataCreate.Value 10%float) TelemetryDataCreate.Absent))
       = main.HTTP_200 row
       /\ TelemetryData.id row = 7%Z
       /\ TelemetryData.timestamp row = 9%Z
       /\ TelemetryData.unit row = None.
Proof.
  split; [|split].
  - destruct (ingestion_outcomes 9 scenario_A
                (TelemetryDataCreate.mk_body (TelemetryDataCreate.Value 7%Z)
                   (TelemetryDataCreate.Value "sensor-alpha-001"%string)
                   (TelemetryDataCreate.Value "temperature"%string)
                   TelemetryDataCreate.Absent TelemetryDataCreate.Absent))
      as (_ & H & _).
    apply (H ValidationError). reflexivity.
  - destruct (ingestion_outcomes 9 scenario_A
                (TelemetryDataCreate.mk_body TelemetryDataCreate.Invalid
                   (TelemetryDataCreate.Value "sensor-alpha-001"%string)
                   (TelemetryDataCreate.Value "temperature"%string)
                   (TelemetryDataCreate.Value 10%float) TelemetryDataCreate.Absent))
      as (_ & H & _).
    apply (H ValidationError). reflexivity.
  - destruct (ingestion_outcomes 9 scenario_A
                (TelemetryDataCreate.mk_body TelemetryDataCreate.Absent
                   (TelemetryDataCreate.Value "sensor-alpha-001"%string)
                   (TelemetryDataCreate.Value "temperature"%string)
                   (TelemetryDataCreate.Value 10%float) TelemetryDataCreate.Absent))
      as (_ & _ & H).
    destruct (H _ eq_refl) as (row & E & Hid & _ & Hts & _ & _ & _ & _ & Hu).
    exists row. rewrite E. split; [reflexivity|].
    split; [rewrite Hid; reflexivity|]. split; [exact Hts | exact Hu].
Defined.

(** ** The metric summary *)

Lemma SFleb_trans (a b c : spec_float) :
  SFleb a b = true -> SFleb b c = true -> SFleb a c = true.
Proof.
  unfold SFleb.
  destruct a as [sa|sa| |sa ma ea], b as [sb|sb| |sb mb eb], c as [sc|sc| |sc mc ec];
    cbn; try congruence; sf_cases.
Qed.

Lemma SFltb_leb (a b : spec_float) : SFltb a b = true -> SFleb a b = true.
Proof.
  unfold SFleb, SFltb. destruct (SFcompare a b) as [[ | | ]|]; congruence.
Qed.

Lemma SFltb_false_leb (a b : spec_float) :
  SFltb a b = false -> SFeqb a a = true -> SFeqb b b = true -> SFleb b a = true.
Proof.
  unfold SFleb, SFltb, SFeqb.
  destruct a as [sa|sa| |sa ma ea], b as [sb|sb| |sb mb eb];
    cbn; try congruence; sf_cases.
Qed.

Lemma SFleb_refl (a : spec_float) : SFeqb a a = true -> SFleb a a = true.
Proof.
  unfold SFleb, SFeqb. destruct (SFcompare a a) as [[ | | ]|]; congruence.
Qed.

Lemma leb_trans (a b c : float) :
  (a <=? b)%float = true -> (b <=? c)%float = true -> (a <=? c)%float = true.
Proof. rewrite !FloatAxioms.leb_spec. apply SFleb_trans. Qed.

Lemma ltb_leb (a b : float) : (a <? b)%float = true -> (a <=? b)%float = true.
Proof. rewrite FloatAxioms.ltb_spec, FloatAxioms.leb_spec. apply SFltb_leb. Qed.

Lemma ltb_false_leb (a b : float) :
  (a <? b)%float = false -> is_nan a = false -> is_nan b = false ->
  (b <=? a)%float = true.
Proof.
  unfold is_nan. rewrite !negb_false_iff.
  rewrite FloatAxioms.ltb_spec, FloatAxioms.leb_spec, !FloatAxioms.eqb_spec.
  apply SFltb_false_leb.
Qed.

Lemma leb_refl (a : float) : is_nan a = false -> (a <=? a)%float = true.
Proof.
  unfold is_nan. rewrite negb_false_iff, FloatAxioms.leb_spec, FloatAxioms.eqb_spec.
  apply SFleb_refl.
Qed.

Lemma fold_min_in (vs : list float) (best : float) :
  let r := fold_left (fun best x => if (x <? best)%float then x else best) vs best in
  r = best \/ In r vs.
Proof.
  revert best. induction vs as [|x vs IH]; intros best; cbn; [auto|].
  destruct (IH (if (x <? best)%float then x else best)) as [H|H]; [|auto].
  rewrite H. destruct (x <? best)%float; auto.
Qed.

Lemma fold_max_in (vs : list float) (best : float) :
  let r := fold_left (fun best x => if (best <? x)%float then x else best) vs best in
  r = best \/ In r vs.
Proof.
  revert best. induction vs as [|x vs IH]; intros best; cbn; [auto|].
  destruct (IH (if (best <? x)%float then x else best)) as [H|H]; [|auto].
  rewrite H. destruct (best <? x)%float; auto.
Qed.

Lemma fold_min_le (vs : list float) (best : float) :
  is_nan best = false ->
  Forall (fun v => is_nan v = false) vs ->
  let r := fold_left (fun best x => if (x <? best)%float then x else best) vs best in
  (r <=? best)%float = true /\ Forall (fun v => (r <=? v)%float = true) vs.
Proof.
  revert best. induction vs as [|x vs IH]; intros best Hb Hvs; cbn.
  - split; [apply leb_refl, Hb | constructor].
  - inversion Hvs as [|y ys Hx Hvs']; subst.
    destruct (x <? best)%float eqn:E.
    + destruct (IH x Hx Hvs') as [H1 H2]. split; [|constructor; assumption].
      eapply leb_trans; [exact H1 | apply ltb_leb, E].
    + destruct (IH best Hb Hvs') as [H1 H2]. split; [exact H1|].
      constructor; [|exact H2].
      eapply leb_trans; [exact H1 | apply ltb_false_leb; assumption].
Qed.

Lemma fold_max_ge (vs : list float) (best : float) :
  is_nan best = false ->
  Forall (fun v => is_nan v = false) vs ->
  let r := fold_left (fun best x => if (best <? x)%float then x else best) vs best in
  (best <=? r)%float = true /\ Forall (fun v => (v <=? r)%float = true) vs.
Proof.
  revert best. induction vs as [|x vs IH]; intros best Hb Hvs; cbn.
  - split; [apply leb_refl, Hb | constructor].
  - inversion Hvs as [|y ys Hx Hvs']; subst.
    destruct (best <? x)%float eqn:E.
    + destruct (IH x Hx Hvs') as [H1 H2]. split; [|constructor; assumption].
      eapply leb_trans; [apply ltb_leb, E | exact H1].
    + destruct (IH best Hb Hvs') as [H1 H2]. split; [exact H1|].
      constructor; [|exact H2].
      eapply leb_trans; [apply ltb_false_leb; eassumption | exact H1].
Qed.

(** X14. [get_metric_summary_for_device] returns no summary exactly when no
    reading of the device and metric with a value other than NaN is stored,
    and then the endpoint answers 404.  A summary names the device and metric
    asked for; its minimum and maximum are values of stored readings of that
    device and metric, the minimum below or equal to the value of each such
    reading that is not NaN and the maximum above or equal. *)
Theorem metric_summary (sql_avg : list float -> float) (db : Session)
  (device_id metric_name : string) :
  (crud.get_metric_summary_for_device sql_avg db device_id metric_name = None
   <-> forall d, In d (telemetry_data db) ->
                 TelemetryData.device_id d = device_id ->
                 TelemetryData.metric_name d = metric_name ->
                 is_nan (TelemetryData.metric_value d) = true)
  /\ (main.get_metric_summary sql_avg db device_id metric_name
      = main.HTTPException 404 "No data found for this metric or device."
      <-> crud.get_metric_summary_for_device sql_avg db device_id metric_name = None)
  /\ (forall summary,
        crud.get_metric_summary_for_device sql_avg db device_id metric_name
        = Some summary ->
        crud.Summary.device_id summary = device_id
        /\ crud.Summary.metric_name summary = metric_name
        /\ (exists d, In d (telemetry_data db)
                      /\ TelemetryData.device_id d = device_id
                      /\ TelemetryData.metric_name d = metric_name
                      /\ TelemetryData.metric_value d = crud.Summary.min_value summary)
        /\ (exists d, In d (telemetry_data db)
                      /\ TelemetryData.device_id d = device_id
                      /\ TelemetryData.metric_name d = metric_name
                      /\ TelemetryData.metric_value d = crud.Summary.max_value summary)
        /\ (forall d, In d (telemetry_data db) ->
                      TelemetryData.device_id d = device_id ->
                      TelemetryData.metric_name d = metric_name ->
                      is_nan (TelemetryData.metric_value d) = false ->
                      (crud.Summary.min_value summary <=? TelemetryData.metric_value d)%float
                      = true
                      /\ (TelemetryData.metric_value d <=? crud.Summary.max_value summary)%float
                         = true)).
Proof.
  unfold main.get_metric_summary, crud.get_metric_summary_for_device. cbv zeta.
  set (vals := crud.not_null
                 (map TelemetryData.metric_value
                    (filter (crud.of_metric device_id metric_name) (telemetry_data db)))).
  assert (Hval : forall v, In v vals <->
                   is_nan v = false
                   /\ exists d, In d (telemetry_data db)
                                /\ TelemetryData.device_id d = device_id
                                /\ TelemetryData.metric_name d = metric_name
                                /\ TelemetryData.metric_value d = v).
  { intros v. unfold vals, crud.not_null.
    rewrite filter_In, in_map_iff, negb_true_iff. split.
    - intros [(d & <- & Hd) Hn]. apply filter_In in Hd. rewrite of_metric_spec in Hd.
      split; [exact Hn|]. exists d. tauto.
    - intros [Hn (d & Hd & Hdev & Hmet & <-)]. split; [|exact Hn].
      exists d. split; [reflexivity|]. apply filter_In. rewrite of_metric_spec. tauto. }
  assert (Hall : Forall (fun v => is_nan v = false) vals).
  { apply Forall_forall. intros v Hv. apply Hval in Hv. apply Hv. }
  clearbody vals.
  destruct vals as [|x vs]; cbn [crud.sql_min crud.sql_max].
  - split; [|split].
    + split; [|reflexivity]. intros _ d Hd Hdev Hmet.
      destruct (is_nan (TelemetryData.metric_value d)) eqn:E; [reflexivity|]. exfalso.
      assert (H : In (TelemetryData.metric_value d) []) by (apply Hval; eauto 10).
      exact H.
    + split; reflexivity.
    + intros summary H. discriminate.
  - inversion Hall as [|y ys Hx Hrest]; subst.
    split; [|split].
    + split; [discriminate|]. intros H. exfalso.
      assert (Hin : In x (x :: vs)) by (left; reflexivity).
      apply Hval in Hin. destruct Hin as (_ & d & Hd & Hdev & Hmet & Hv).
      specialize (H d Hd Hdev Hmet). congruence.
    + split; discriminate.
    + intros summary H. injection H as <-.
      cbn [crud.Summary.device_id crud.Summary.metric_name crud.Summary.min_value
           crud.Summary.max_value].
      split; [reflexivity|]. split; [reflexivity|].
      split; [|split].
      * apply Hval. destruct (fold_min_in vs x) as [->|H]; [now left|now right].
      * apply Hval. destruct (fold_max_in vs x) as [->|H]; [now left|now right].
      * intros d Hd Hdev Hmet Hn.
        destruct (fold_min_le _ _ Hx Hrest) as [Hmin1 Hmin2].
        destruct (fold_max_ge _ _ Hx Hrest) as [Hmax1 Hmax2].
        assert (Hin : In (TelemetryData.metric_value d) (x :: vs))
          by (apply Hval; eauto 10).
        rewrite Forall_forall in Hmin2, Hmax2.
        destruct Hin as [<-|Hin]; [split; assumption|].
        split; [apply Hmin2 | apply Hmax2]; exact Hin.
Qed.

(** Scenario D with the mean of numpy for the average: values 98 to 103. *)
Lemma metric_summary_scenario_D :
  crud.get_metric_summary_for_device np.mean scenario_D "sensor-alpha-001" "temperature"
  = Some (crud.Summary.mk "sensor-alpha-001" "temperature" 98 103 100.5)
  /\ main.get_metric_summary np.mean scenario_D "sensor-alpha-001" "pressure"
     = main.HTTPException 404 "No data found for this metric or device.".
Proof.
  split; [reflexivity|].
  destruct (metric_summary np.mean scenario_D "sensor-alpha-001" "pressure")
    as (H1 & H2 & _).
  apply H2, H1. intros d Hd _ Hmet. vm_compute in Hd.
  repeat (destruct Hd as [<-|Hd]; [discriminate|]). contradiction.
Defined.
